(** * Uber wallet tracker: trip metrics, ledgers and period reports

    A shallow embedding of the business logic of [uber_prof.py]: the
    per-trip derived metrics, the wallet and fuel ledgers kept by
    [UberWallet], the duplicate and tank-capacity checks, the loading of
    the stored records and the period reports.

    Numbers are Python [float]s, that is IEEE 754 binary64 values; they
    are modelled by Rocq's primitive floats, whose operations are the
    same correctly rounded binary64 operations.  Lists indexed by
    position use stdpp's lookup, insert and delete. *)

From Stdlib Require Import ZArith Floats String Ascii List Bool Lia.
From Stdlib Require Import DecimalString Permutation Sorted.
From stdpp Require Import base option list.

Set Warnings "-inexact-float".
Local Open Scope Z_scope.

(** ** Exceptions and results *)

(** What a [ValueError] of the modelled code is about; the program only
    ever shows the text of the first two. *)
Inductive value_error : Type :=
  | CannotBeNegative (field_name : option string)
  | NotAFloat (text : string)
  | BadDate (text : string)
  | NotPositiveSettings.

(** The Python exceptions that the modelled code can raise. *)
Inductive exn : Type :=
  | ZeroDivisionError
  | ValueError (why : value_error)
  | KeyError (key : string)
  | IndexError.

Inductive result (A : Type) : Type :=
  | Ok (a : A)
  | Raise (e : exn).
Arguments Ok {A} a.
Arguments Raise {A} e.

Definition rbind {A B : Type} (r : result A) (k : A -> result B) : result B :=
  match r with
  | Ok a => k a
  | Raise e => Raise e
  end.

Declare Scope result_scope.
Delimit Scope result_scope with result.
Notation "'let*' x ':=' r 'in' k" := (rbind r (fun x => k))
  (at level 10, x name, r at level 100, k at level 200) : result_scope.
Local Open Scope result_scope.

(** ** Python floats *)

Module PyFloat.

(** [bool(x)] for a float: false exactly for the two zeros; a NaN is
    truthy. *)
Definition truthy (x : float) : bool := negb (PrimFloat.eqb x 0%float).

(** [a / b]: Python raises [ZeroDivisionError] when the divisor is a
    zero of either sign, whatever the dividend. *)
Definition truediv (a b : float) : result float :=
  if PrimFloat.eqb b 0%float then Raise ZeroDivisionError
  else Ok (PrimFloat.div a b).

(** The nearest integer to [a / b] for [0 <= a] and [0 < b], ties going
    to the even neighbour. *)
Definition div_half_even (a b : Z) : Z :=
  let q := a / b in
  let r := a mod b in
  match 2 * r ?= b with
  | Lt => q
  | Gt => q + 1
  | Eq => if Z.even q then q else q + 1
  end.

(** [|x| * 10^k] rounded to an integer, half to even, for the finite
    non-zero float of mantissa [m] and exponent [e] (value [m * 2^e]).
    This is the digit string that [dtoa] produces in mode 3. *)
Definition scaled (k : Z) (m : positive) (e : Z) : Z :=
  if 0 <=? e then Z.pos m * 2 ^ e * 10 ^ k
  else div_half_even (Z.pos m * 10 ^ k) (2 ^ (- e)).

(** The double nearest to [n / 10^k] (ties to even), signed by [s]:
    what [strtod] returns for the decimal string of [n] with exponent
    [-k]. *)
Definition of_decimal (s : bool) (n : Z) (k : Z) : float :=
  match n with
  | Z.pos p =>
      SF2Prim (SFdiv prec emax (S754_finite s p 0)
                               (S754_finite false (Z.to_pos (10 ^ k)) 0))
  | _ => SF2Prim (S754_zero s)
  end.

(** [round(x, 2)].  NaNs, infinities and zeros round to themselves; a
    finite value is rounded to two decimals on its exact binary value,
    half to even, and the decimal result is converted back to the
    nearest double. *)
Definition round2 (x : float) : float :=
  match Prim2SF x with
  | S754_finite s m e => of_decimal s (scaled 2 m e) 2
  | _ => x
  end.

(** [sum(xs)] over floats: the additions are carried out from left to
    right, starting from [0].  This is the built-in of CPython up to
    version 3.11. *)
Definition sum (xs : list float) : float :=
  fold_left PrimFloat.add xs 0%float.

Definition is_finite (x : float) : bool :=
  negb (PrimFloat.is_nan x || PrimFloat.is_infinity x).

(** [sum(xs)] as CPython computes it from version 3.12 on: the same
    additions, with the rounding error of each one collected in a second
    accumulator that is added at the end when it is finite and not
    zero. *)
Definition sum_compensated (xs : list float) : float :=
  let step (acc : float * float) (x : float) : float * float :=
    let (f_result, c) := acc in
    let t := PrimFloat.add f_result x in
    if PrimFloat.leb (PrimFloat.abs x) (PrimFloat.abs f_result)
    then (t, PrimFloat.add c (PrimFloat.add (PrimFloat.sub f_result t) x))
    else (t, PrimFloat.add c (PrimFloat.add (PrimFloat.sub x t) f_result)) in
  let (f_result, c) := fold_left step xs (0%float, 0%float) in
  if truthy c && is_finite c then PrimFloat.add f_result c else f_result.

End PyFloat.

(** ** Text: decimal numerals, padding, stripping *)

Module Text.
Local Open Scope string_scope.

(** [str(n)] for an integer. *)
Definition of_Z (n : Z) : string := NilZero.string_of_int (Z.to_int n).

Fixpoint replicate (n : nat) (c : ascii) : string :=
  match n with
  | O => EmptyString
  | S n' => String c (replicate n' c)
  end.

(** Zero padding on the left up to [width] characters. *)
Definition zfill (width : nat) (s : string) : string :=
  replicate (width - String.length s)%nat "0" ++ s.

(** [f"{n:02d}"]: the sign, when there is one, counts in the width and
    the zeros go between the sign and the digits. *)
Definition format_02d (n : Z) : string :=
  if (n <? 0)%Z then "-" ++ zfill 1 (of_Z (- n)) else zfill 2 (of_Z n).

(** ASCII white space, as [str.strip] removes it. *)
Definition is_space (c : ascii) : bool :=
  let n := N_of_ascii c in
  ((9 <=? n) && (n <=? 13) || (28 <=? n) && (n <=? 32))%N.

Fixpoint lstrip (s : string) : string :=
  match s with
  | String c s' => if is_space c then lstrip s' else s
  | EmptyString => EmptyString
  end.

Fixpoint rstrip (s : string) : string :=
  match s with
  | String c s' =>
      match rstrip s' with
      | EmptyString => if is_space c then EmptyString else String c EmptyString
      | r => String c r
      end
  | EmptyString => EmptyString
  end.

Definition strip (s : string) : string := rstrip (lstrip s).

(** Truth value of a string: false exactly for the empty string. *)
Definition truthy (s : string) : bool :=
  match s with EmptyString => false | _ => true end.

Definition sign_text (s : bool) : string := if s then "-" else "".

(** The digits of the scaled integer [n] with a point before the last
    [k] of them ([0 < k]). *)
Definition fixed_digits (k : nat) (n : Z) : string :=
  let p := 10 ^ Z.of_nat k in
  of_Z (n / p) ++ "." ++ zfill k (of_Z (n mod p)).

(** [f"{x:.kf}"] for [0 < k]: the exact binary value rounded half to
    even at [k] decimals; the sign bit is printed also when the digits
    are all zero. *)
Definition format_fixed (k : nat) (x : float) : string :=
  match Prim2SF x with
  | S754_nan => "nan"
  | S754_infinity s => sign_text s ++ "inf"
  | S754_zero s => sign_text s ++ fixed_digits k 0
  | S754_finite s m e =>
      sign_text s ++ fixed_digits k (PyFloat.scaled (Z.of_nat k) m e)
  end.

End Text.

(** ** Calendar dates and the [%Y-%m-%d] text form *)

Module Date.
Local Open Scope string_scope.

(** A [datetime.date]. *)
Record date : Type := mkDate { year : Z; month : Z; day : Z }.

Definition is_leap (y : Z) : bool :=
  ((y mod 4 =? 0) && (negb (y mod 100 =? 0) || (y mod 400 =? 0)))%Z.

Definition days_in_month (y m : Z) : Z :=
  if (m =? 2)%Z then (if is_leap y then 29 else 28)
  else if ((m =? 4) || (m =? 6) || (m =? 9) || (m =? 11))%Z then 30
  else 31.

(** The dates that [datetime.date] can hold. *)
Definition valid (d : date) : bool :=
  ((1 <=? year d) && (year d <=? 9999) &&
   (1 <=? month d) && (month d <=? 12) &&
   (1 <=? day d) && (day d <=? days_in_month (year d) (month d)))%Z.

(** [d.strftime('%Y-%m-%d')], for the four-digit years. *)
Definition strftime (d : date) : string :=
  Text.zfill 4 (Text.of_Z (year d)) ++ "-" ++
  Text.zfill 2 (Text.of_Z (month d)) ++ "-" ++
  Text.zfill 2 (Text.of_Z (day d)).

Definition digit (c : ascii) : option Z :=
  let n := N_of_ascii c in
  if ((48 <=? n) && (n <=? 57))%N then Some (Z.of_N n - 48)%Z else None.

(** The month directive [%m]: [1[0-2]|0[1-9]|[1-9]]. *)
Definition month_token (cs : list ascii) : option Z :=
  match cs with
  | [a] =>
      match digit a with
      | Some x => if (1 <=? x)%Z then Some x else None
      | None => None
      end
  | [a; b] =>
      match digit a, digit b with
      | Some 1%Z, Some y => if (y <=? 2)%Z then Some (10 + y)%Z else None
      | Some 0%Z, Some y => if (1 <=? y)%Z then Some y else None
      | _, _ => None
      end
  | _ => None
  end.

(** The day directive [%d]: [3[01]|[12]\d|0[1-9]|[1-9]| [1-9]]; the
    whole remaining text has to be consumed. *)
Definition day_token (cs : list ascii) : option Z :=
  match cs with
  | [a] =>
      match digit a with
      | Some x => if (1 <=? x)%Z then Some x else None
      | None => None
      end
  | [a; b] =>
      match digit a, digit b with
      | Some 3%Z, Some y => if (y <=? 1)%Z then Some (30 + y)%Z else None
      | Some 1%Z, Some y => Some (10 + y)%Z
      | Some 2%Z, Some y => Some (20 + y)%Z
      | Some 0%Z, Some y => if (1 <=? y)%Z then Some y else None
      | None, Some y =>
          if (Ascii.eqb a " " && (1 <=? y)%Z)%bool then Some y else None
      | _, _ => None
      end
  | _ => None
  end.

(** Splits at the first hyphen. *)
Fixpoint upto_hyphen (cs : list ascii) : option (list ascii * list ascii) :=
  match cs with
  | [] => None
  | c :: cs' =>
      if Ascii.eqb c "-" then Some ([], cs')
      else match upto_hyphen cs' with
           | Some (tok, rest) => Some (c :: tok, rest)
           | None => None
           end
  end.

(** [datetime.strptime(s, '%Y-%m-%d').date()]: four digits, a hyphen,
    a month, a hyphen, a day, and then the check that the day exists in
    that month of that year. *)
Definition strptime (s : string) : result date :=
  match list_ascii_of_string s with
  | y1 :: y2 :: y3 :: y4 :: h :: rest =>
      match digit y1, digit y2, digit y3, digit y4, upto_hyphen rest with
      | Some a, Some b, Some c, Some d, Some (mtok, dtok) =>
          if negb (Ascii.eqb h "-") then Raise (ValueError (BadDate s)) else
          match month_token mtok, day_token dtok with
          | Some m, Some dd =>
              let dt := mkDate (1000 * a + 100 * b + 10 * c + d)%Z m dd in
              if valid dt then Ok dt
              else Raise (ValueError (BadDate s))
          | _, _ => Raise (ValueError (BadDate s))
          end
      | _, _, _, _, _ => Raise (ValueError (BadDate s))
      end
  | _ => Raise (ValueError (BadDate s))
  end.

(** The order of [datetime.date] values. *)
Definition leb (a b : date) : bool :=
  ((year a <? year b) ||
   (year a =? year b) &&
     ((month a <? month b) || (month a =? month b) && (day a <=? day b)))%Z.

End Date.

(** ** Records *)

(** A trip: the dictionary with the keys of [TRIP_FIELDS], and the key
    ['id'] for the trips read from the database ([None] when the key is
    absent). *)
Module Trip.

Record t : Type := mk {
  id : option Z;
  date : string;
  time : string;
  end_time : string;
  duration : string;
  cash_collected : float;
  fare : float;
  service_fee : float;
  taxes : float;
  distance_km : float;
  tips : float;
  earnings : float;
  trip_balance : float;
  discount : float;
  discount_rate : float;
  earnings_per_km : float;
  fuel_used : float;
  estimated_fuel_cost : float;
  service_fee_percent : float;
  taxes_percent : float
}.

(** The dictionary that [save_trip] and [update_trip] start from: the
    four texts, the numeric keys not assigned yet. *)
Definition blank (i : option Z) (d tm e du : string) : t :=
  mk i d tm e du 0 0 0 0 0 0 0 0 0 0 0 0 0 0 0%float.

(** [trip[key] = v], one definition per numeric key. *)
Definition set_cash_collected (v : float) (r : t) : t :=
  mk (id r) (date r) (time r) (end_time r) (duration r) v (fare r)
     (service_fee r) (taxes r) (distance_km r) (tips r) (earnings r)
     (trip_balance r) (discount r) (discount_rate r) (earnings_per_km r)
     (fuel_used r) (estimated_fuel_cost r) (service_fee_percent r)
     (taxes_percent r).
Definition set_fare (v : float) (r : t) : t :=
  mk (id r) (date r) (time r) (end_time r) (duration r) (cash_collected r) v
     (service_fee r) (taxes r) (distance_km r) (tips r) (earnings r)
     (trip_balance r) (discount r) (discount_rate r) (earnings_per_km r)
     (fuel_used r) (estimated_fuel_cost r) (service_fee_percent r)
     (taxes_percent r).
Definition set_service_fee (v : float) (r : t) : t :=
  mk (id r) (date r) (time r) (end_time r) (duration r) (cash_collected r)
     (fare r) v (taxes r) (distance_km r) (tips r) (earnings r)
     (trip_balance r) (discount r) (discount_rate r) (earnings_per_km r)
     (fuel_used r) (estimated_fuel_cost r) (service_fee_percent r)
     (taxes_percent r).
Definition set_taxes (v : float) (r : t) : t :=
  mk (id r) (date r) (time r) (end_time r) (duration r) (cash_collected r)
     (fare r) (service_fee r) v (distance_km r) (tips r) (earnings r)
     (trip_balance r) (discount r) (discount_rate r) (earnings_per_km r)
     (fuel_used r) (estimated_fuel_cost r) (service_fee_percent r)
     (taxes_percent r).
Definition set_distance_km (v : float) (r : t) : t :=
  mk (id r) (date r) (time r) (end_time r) (duration r) (cash_collected r)
     (fare r) (service_fee r) (taxes r) v (tips r) (earnings r)
     (trip_balance r) (discount r) (discount_rate r) (earnings_per_km r)
     (fuel_used r) (estimated_fuel_cost r) (service_fee_percent r)
     (taxes_percent r).
Definition set_tips (v : float) (r : t) : t :=
  mk (id r) (date r) (time r) (end_time r) (duration r) (cash_collected r)
     (fare r) (service_fee r) (taxes r) (distance_km r) v (earnings r)
     (trip_balance r) (discount r) (discount_rate r) (earnings_per_km r)
     (fuel_used r) (estimated_fuel_cost r) (service_fee_percent r)
     (taxes_percent r).
Definition set_earnings (v : float) (r : t) : t :=
  mk (id r) (date r) (time r) (end_time r) (duration r) (cash_collected r)
     (fare r) (service_fee r) (taxes r) (distance_km r) (tips r) v
     (trip_balance r) (discount r) (discount_rate r) (earnings_per_km r)
     (fuel_used r) (estimated_fuel_cost r) (service_fee_percent r)
     (taxes_percent r).
Definition set_trip_balance (v : float) (r : t) : t :=
  mk (id r) (date r) (time r) (end_time r) (duration r) (cash_collected r)
     (fare r) (service_fee r) (taxes r) (distance_km r) (tips r) (earnings r) v
     (discount r) (discount_rate r) (earnings_per_km r) (fuel_used r)
     (estimated_fuel_cost r) (service_fee_percent r) (taxes_percent r).
Definition set_discount (v : float) (r : t) : t :=
  mk (id r) (date r) (time r) (end_time r) (duration r) (cash_collected r)
     (fare r) (service_fee r) (taxes r) (distance_km r) (tips r) (earnings r)
     (trip_balance r) v (discount_rate r) (earnings_per_km r) (fuel_used r)
     (estimated_fuel_cost r) (service_fee_percent r) (taxes_percent r).
Definition set_discount_rate (v : float) (r : t) : t :=
  mk (id r) (date r) (time r) (end_time r) (duration r) (cash_collected r)
     (fare r) (service_fee r) (taxes r) (distance_km r) (tips r) (earnings r)
     (trip_balance r) (discount r) v (earnings_per_km r) (fuel_used r)
     (estimated_fuel_cost r) (service_fee_percent r) (taxes_percent r).
Definition set_earnings_per_km (v : float) (r : t) : t :=
  mk (id r) (date r) (time r) (end_time r) (duration r) (cash_collected r)
     (fare r) (service_fee r) (taxes r) (distance_km r) (tips r) (earnings r)
     (trip_balance r) (discount r) (discount_rate r) v (fuel_used r)
     (estimated_fuel_cost r) (service_fee_percent r) (taxes_percent r).
Definition set_fuel_used (v : float) (r : t) : t :=
  mk (id r) (date r) (time r) (end_time r) (duration r) (cash_collected r)
     (fare r) (service_fee r) (taxes r) (distance_km r) (tips r) (earnings r)
     (trip_balance r) (discount r) (discount_rate r) (earnings_per_km r) v
     (estimated_fuel_cost r) (service_fee_percent r) (taxes_percent r).
Definition set_estimated_fuel_cost (v : float) (r : t) : t :=
  mk (id r) (date r) (time r) (end_time r) (duration r) (cash_collected r)
     (fare r) (service_fee r) (taxes r) (distance_km r) (tips r) (earnings r)
     (trip_balance r) (discount r) (discount_rate r) (earnings_per_km r)
     (fuel_used r) v (service_fee_percent r) (taxes_percent r).
Definition set_service_fee_percent (v : float) (r : t) : t :=
  mk (id r) (date r) (time r) (end_time r) (duration r) (cash_collected r)
     (fare r) (service_fee r) (taxes r) (distance_km r) (tips r) (earnings r)
     (trip_balance r) (discount r) (discount_rate r) (earnings_per_km r)
     (fuel_used r) (estimated_fuel_cost r) v (taxes_percent r).
Definition set_taxes_percent (v : float) (r : t) : t :=
  mk (id r) (date r) (time r) (end_time r) (duration r) (cash_collected r)
     (fare r) (service_fee r) (taxes r) (distance_km r) (tips r) (earnings r)
     (trip_balance r) (discount r) (discount_rate r) (earnings_per_km r)
     (fuel_used r) (estimated_fuel_cost r) (service_fee_percent r) v.

End Trip.

(** A fuel purchase: the dictionary with the keys of [FUEL_LOG_FIELDS] and
    ['id'], which holds [None] for a purchase entered in this session. *)
Module FuelLog.

Record t : Type := mk {
  id : option Z;
  date : string;
  time : string;
  station : string;
  location : string;
  amount : float;
  price_per_liter : float;
  liters : float
}.

End FuelLog.

(** ** The derived fields of a trip *)

Module Metrics.
Import Trip.
Local Open Scope float_scope.

(** One assignment [trip[key] = expression]: the dictionary after it,
    or the exception that evaluating the expression raised. *)
Definition statement : Type := Trip.t -> result Trip.t.

(** Runs assignments in order on one dictionary.  An exception stops
    the run; the dictionary then keeps what the earlier assignments
    wrote. *)
Fixpoint run (body : list statement) (trip : Trip.t) : Trip.t * option exn :=
  match body with
  | [] => (trip, None)
  | s :: body' =>
      match s trip with
      | Ok trip' => run body' trip'
      | Raise e => (trip, Some e)
      end
  end.

(** The nine assignments that [save_trip], [update_trip] and
    [recalculate_trip_data] all make, in this order, each reading the
    dictionary as the ones before it left it.  [fuel_efficiency] and
    [petrol_price] stand for the two settings, read from the settings
    variables by the first two and from the module constants by the
    third. *)
Definition assignments (fuel_efficiency petrol_price : float) : list statement :=
  [ (fun trip =>
       Ok (set_earnings
             (fare trip - (service_fee trip + taxes trip) + tips trip) trip));
    (fun trip =>
       Ok (set_trip_balance
             (fare trip - (cash_collected trip + service_fee trip + taxes trip))
             trip));
    (fun trip => Ok (set_discount (fare trip - cash_collected trip) trip));
    (fun trip =>
       let* v :=
         (if PyFloat.truthy (fare trip)
          then let* q := PyFloat.truediv (discount trip) (fare trip) in
               Ok (PyFloat.round2 (q * 100))
          else Ok 0) in
       Ok (set_discount_rate v trip));
    (fun trip =>
       let* v :=
         (if PyFloat.truthy (distance_km trip)
          then let* q := PyFloat.truediv (earnings trip) (distance_km trip) in
               Ok (PyFloat.round2 q)
          else Ok 0) in
       Ok (set_earnings_per_km v trip));
    (fun trip =>
       let* v :=
         (if PyFloat.truthy (distance_km trip)
          then let* q := PyFloat.truediv (distance_km trip) fuel_efficiency in
               Ok (PyFloat.round2 q)
          else Ok 0) in
       Ok (set_fuel_used v trip));
    (fun trip =>
       Ok (set_estimated_fuel_cost
             (PyFloat.round2 (fuel_used trip * petrol_price)) trip));
    (fun trip =>
       let* v :=
         (if PyFloat.truthy (fare trip)
          then let* q := PyFloat.truediv (service_fee trip) (fare trip) in
               Ok (PyFloat.round2 (q * 100))
          else Ok 0) in
       Ok (set_service_fee_percent v trip));
    (fun trip =>
       let* v :=
         (if PyFloat.truthy (fare trip)
          then let* q := PyFloat.truediv (taxes trip) (fare trip) in
               Ok (PyFloat.round2 (q * 100))
          else Ok 0) in
       Ok (set_taxes_percent v trip)) ].

Definition calculate (fuel_efficiency petrol_price : float) (trip : Trip.t)
  : Trip.t * option exn :=
  run (assignments fuel_efficiency petrol_price) trip.

End Metrics.


(** ** The database file *)

(** The two tables of [uber_wallet.db].  Every row carries its [id]; the
    sequence numbers are the largest ids handed out so far, which
    [AUTOINCREMENT] never reuses.  The model covers the runs in which the
    file can be opened.  A [NULL] of a numeric column is written [nan],
    which no stored number is: SQLite binds a NaN as [NULL]. *)
Module Db.

Record t : Type := mk {
  trips : list Trip.t;
  trips_seq : Z;
  fuel_logs : list FuelLog.t;
  fuel_logs_seq : Z
}.

Definition set_trip_id (i : option Z) (r : Trip.t) : Trip.t :=
  Trip.mk i (Trip.date r) (Trip.time r) (Trip.end_time r) (Trip.duration r)
    (Trip.cash_collected r) (Trip.fare r) (Trip.service_fee r) (Trip.taxes r)
    (Trip.distance_km r) (Trip.tips r) (Trip.earnings r) (Trip.trip_balance r)
    (Trip.discount r) (Trip.discount_rate r) (Trip.earnings_per_km r)
    (Trip.fuel_used r) (Trip.estimated_fuel_cost r)
    (Trip.service_fee_percent r) (Trip.taxes_percent r).

Definition set_fuel_log_id (i : option Z) (r : FuelLog.t) : FuelLog.t :=
  FuelLog.mk i (FuelLog.date r) (FuelLog.time r) (FuelLog.station r)
    (FuelLog.location r) (FuelLog.amount r) (FuelLog.price_per_liter r)
    (FuelLog.liters r).

(** What a [REAL] column gives back for the number it was given: the
    number itself, a negative zero as zero. *)
Definition real (x : float) : float := if PrimFloat.eqb x 0 then 0%float else x.

(** The row that the values of a trip leave in the table, but for its
    id. *)
Definition stored_trip (r : Trip.t) : Trip.t :=
  Trip.mk (Trip.id r) (Trip.date r) (Trip.time r) (Trip.end_time r) (Trip.duration r)
    (real (Trip.cash_collected r)) (real (Trip.fare r)) (real (Trip.service_fee r))
    (real (Trip.taxes r)) (real (Trip.distance_km r)) (real (Trip.tips r))
    (real (Trip.earnings r)) (real (Trip.trip_balance r)) (real (Trip.discount r))
    (real (Trip.discount_rate r)) (real (Trip.earnings_per_km r))
    (real (Trip.fuel_used r)) (real (Trip.estimated_fuel_cost r))
    (real (Trip.service_fee_percent r)) (real (Trip.taxes_percent r)).

Definition stored_fuel_log (r : FuelLog.t) : FuelLog.t :=
  FuelLog.mk (FuelLog.id r) (FuelLog.date r) (FuelLog.time r) (FuelLog.station r)
    (FuelLog.location r) (real (FuelLog.amount r)) (real (FuelLog.price_per_liter r))
    (real (FuelLog.liters r)).

(** [INSERT] of the given records one after the other: each gets the
    next id, whatever ['id'] the dictionary had. *)
Fixpoint insert_all {A : Type} (set_id : option Z -> A -> A) (seq : Z)
    (records : list A) : list A * Z :=
  match records with
  | [] => ([], seq)
  | r :: records' =>
      let (rows, seq') := insert_all set_id (seq + 1) records' in
      (set_id (Some (seq + 1)) r :: rows, seq')
  end.

(** The sort key of [ORDER BY date DESC, time DESC]: [a] may come
    before [b].  Texts compare byte by byte. *)
Definition before (a b : string * string) : bool :=
  match String.compare (fst a) (fst b) with
  | Gt => true
  | Lt => false
  | Eq => negb (String.ltb (snd a) (snd b))
  end.

Fixpoint place {A : Type} (key : A -> string * string) (r : A) (sorted : list A)
  : list A :=
  match sorted with
  | [] => [r]
  | x :: sorted' =>
      if before (key r) (key x) then r :: sorted
      else x :: place key r sorted'
  end.

(** The rows in the order of [ORDER BY date DESC, time DESC]; rows with
    equal keys keep their table order. *)
Fixpoint order_by_desc {A : Type} (key : A -> string * string) (rows : list A)
  : list A :=
  match rows with
  | [] => []
  | r :: rows' => place key r (order_by_desc key rows')
  end.

(** [LIMIT limit OFFSET offset]: a negative limit is no limit, a
    negative offset is no offset. *)
Definition limit_offset {A : Type} (limit offset : Z) (rows : list A) : list A :=
  let rest := drop (Z.to_nat offset) rows in
  if (limit <? 0)%Z then rest else take (Z.to_nat limit) rest.

Definition trip_key (r : Trip.t) : string * string := (Trip.date r, Trip.time r).
Definition fuel_log_key (r : FuelLog.t) : string * string :=
  (FuelLog.date r, FuelLog.time r).

(** [SELECT * FROM trips ORDER BY date DESC, time DESC LIMIT ? OFFSET ?] *)
Definition select_trips (limit offset : Z) (d : t) : list Trip.t :=
  limit_offset limit offset (order_by_desc trip_key (trips d)).

Definition select_fuel_logs (limit offset : Z) (d : t) : list FuelLog.t :=
  limit_offset limit offset (order_by_desc fuel_log_key (fuel_logs d)).

(** [SELECT COUNT( * ) FROM trips WHERE date=? AND time=? AND
    distance_km=? AND fare=?] *)
Definition count_matching (date time : string) (distance_km fare : float) (d : t)
  : nat :=
  length (List.filter
            (fun r =>
               String.eqb (Trip.date r) date && String.eqb (Trip.time r) time &&
               PrimFloat.eqb (Trip.distance_km r) distance_km &&
               PrimFloat.eqb (Trip.fare r) fare)
            (trips d)).

(** [UPDATE trips SET ... WHERE id=?] with the fields of
    [TRIP_FIELDS[1:]]: every column but [id] and [date].  The handler
    that runs it has checked that the fare and the distance are
    numbers. *)
Definition update_trip (trip_id : Z) (trip_data : Trip.t) (d : t) : t :=
  let values := stored_trip trip_data in
  mk (map (fun r =>
             if bool_decide (Trip.id r = Some trip_id)
             then (Trip.mk (Trip.id r) (Trip.date r) (Trip.time values)
                       (Trip.end_time values) (Trip.duration values)
                       (Trip.cash_collected values) (Trip.fare values)
                       (Trip.service_fee values) (Trip.taxes values)
                       (Trip.distance_km values) (Trip.tips values)
                       (Trip.earnings values) (Trip.trip_balance values)
                       (Trip.discount values) (Trip.discount_rate values)
                       (Trip.earnings_per_km values) (Trip.fuel_used values)
                       (Trip.estimated_fuel_cost values)
                       (Trip.service_fee_percent values)
                       (Trip.taxes_percent values))
             else r) (trips d))
     (trips_seq d) (fuel_logs d) (fuel_logs_seq d).

(** [DELETE FROM trips WHERE id=?] *)
Definition delete_trip (trip_id : Z) (d : t) : t :=
  mk (List.filter (fun r => negb (bool_decide (Trip.id r = Some trip_id))) (trips d))
     (trips_seq d) (fuel_logs d) (fuel_logs_seq d).

(** [UPDATE fuel_logs SET ... WHERE id=?] with the fields of
    [FUEL_LOG_FIELDS[1:]]; an id of [None] matches no row. *)
Definition update_fuel_log (fuel_data : FuelLog.t) (d : t) : t :=
  let values := stored_fuel_log fuel_data in
  mk (trips d) (trips_seq d)
     (map (fun r =>
             if bool_decide (FuelLog.id r = FuelLog.id fuel_data) &&
                bool_decide (FuelLog.id fuel_data <> None)
             then FuelLog.mk (FuelLog.id r) (FuelLog.date r)
                    (FuelLog.time values) (FuelLog.station values)
                    (FuelLog.location values) (FuelLog.amount values)
                    (FuelLog.price_per_liter values) (FuelLog.liters values)
             else r) (fuel_logs d))
     (fuel_logs_seq d).

(** [DELETE FROM fuel_logs WHERE id=?]; an id of [None] matches no
    row. *)
Definition delete_fuel_log (log_id : option Z) (d : t) : t :=
  mk (trips d) (trips_seq d)
     (List.filter (fun r =>
                     negb (bool_decide (FuelLog.id r = log_id) &&
                           bool_decide (log_id <> None)))
        (fuel_logs d))
     (fuel_logs_seq d).

End Db.

(** ** The statements of [save_data] *)

Module Sqlite.
Local Open Scope string_scope.

(** The two subclasses of [sqlite3.Error] that the statements of
    [save_data] can raise, with the text of [str(e)]. *)
Inductive error : Type :=
  | OperationalError (text : string)
  | IntegrityError (text : string).

Definition str (e : error) : string :=
  match e with
  | OperationalError text => text
  | IntegrityError text => text
  end.

Definition TRIP_FIELDS : list string :=
  ["date"; "time"; "end_time"; "duration"; "cash_collected"; "fare";
   "service_fee"; "taxes"; "distance_km"; "tips"; "earnings"; "trip_balance";
   "discount"; "discount_rate"; "earnings_per_km"; "fuel_used";
   "estimated_fuel_cost"; "service_fee_percent"; "taxes_percent"].

Definition FUEL_LOG_FIELDS : list string :=
  ["date"; "time"; "station"; "location"; "amount"; "price_per_liter"; "liters"].

(** The question marks that [save_data] writes after [VALUES] in its
    [INSERT INTO trips] and in its [INSERT INTO fuel_logs]. *)
Definition trip_placeholders : nat := 19.
Definition fuel_log_placeholders : nat := 6.

(** [INSERT INTO table (columns) VALUES (?, ..., ?)] is compiled before it
    runs: a list of values that is not as long as the list of columns is
    an error of the statement itself. *)
Definition prepare_insert (columns : list string) (placeholders : nat)
  : option error :=
  if (length columns =? placeholders)%nat then None
  else Some (OperationalError
               (Text.of_Z (Z.of_nat placeholders) ++ " values for " ++
                Text.of_Z (Z.of_nat (length columns)) ++ " columns")).

(** [fare] and [distance_km] are declared [NOT NULL], and a NaN is bound
    as [NULL]; the columns are checked in the order of the table. *)
Definition not_null (trip : Trip.t) : option error :=
  if PrimFloat.is_nan (Trip.fare trip)
  then Some (IntegrityError "NOT NULL constraint failed: trips.fare")
  else if PrimFloat.is_nan (Trip.distance_km trip)
  then Some (IntegrityError "NOT NULL constraint failed: trips.distance_km")
  else None.

(** The loop [for trip in self.trips: cursor.execute(INSERT ...)]: the
    rows in the order of their ids and the last id handed out, or the
    error of the first statement that fails. *)
Fixpoint insert_trips (seq : Z) (trips : list Trip.t)
  : list Trip.t * Z + error :=
  match trips with
  | [] => inl ([], seq)
  | trip :: rest =>
      match prepare_insert TRIP_FIELDS trip_placeholders with
      | Some e => inr e
      | None =>
          match not_null trip with
          | Some e => inr e
          | None =>
              match insert_trips (seq + 1) rest with
              | inl (rows, seq') =>
                  inl (Db.set_trip_id (Some (seq + 1)) (Db.stored_trip trip) :: rows,
                       seq')
              | inr e => inr e
              end
          end
      end
  end.

(** The loop [for log in self.fuel_logs: cursor.execute(INSERT ...)]. *)
Fixpoint insert_fuel_logs (seq : Z) (logs : list FuelLog.t)
  : list FuelLog.t * Z + error :=
  match logs with
  | [] => inl ([], seq)
  | log :: rest =>
      match prepare_insert FUEL_LOG_FIELDS fuel_log_placeholders with
      | Some e => inr e
      | None =>
          match insert_fuel_logs (seq + 1) rest with
          | inl (rows, seq') =>
              inl (Db.set_fuel_log_id (Some (seq + 1)) (Db.stored_fuel_log log)
                     :: rows,
                   seq')
          | inr e => inr e
          end
      end
  end.

(** The statements of [save_data] up to [conn.commit()]: both tables
    emptied and filled again.  The database they would commit, or the
    error that stops them. *)
Definition transaction (trips : list Trip.t) (fuel_logs : list FuelLog.t) (d : Db.t)
  : Db.t + error :=
  match insert_trips (Db.trips_seq d) trips with
  | inr e => inr e
  | inl (trip_rows, trips_seq) =>
      match insert_fuel_logs (Db.fuel_logs_seq d) fuel_logs with
      | inr e => inr e
      | inl (log_rows, fuel_logs_seq) =>
          inl (Db.mk trip_rows trips_seq log_rows fuel_logs_seq)
      end
  end.

End Sqlite.

(** ** The application object *)

(** The attributes of [UberWallet] that the modelled methods read or
    write, together with the two module constants that [save_settings]
    rebinds and the database file.  [fuel_efficiency] and [petrol_price]
    are the values of the two settings variables. *)
Module UberWallet.

Record t : Type := mk {
  balance : float;
  trips : list Trip.t;
  fuel_logs : list FuelLog.t;
  current_fuel : float;
  fuel_efficiency : float;
  petrol_price : float;
  DEFAULT_FUEL_EFFICIENCY : float;
  DEFAULT_PETROL_PRICE : float;
  db : Db.t
}.

Definition set_balance (v : float) (w : t) : t :=
  mk v (trips w) (fuel_logs w) (current_fuel w) (fuel_efficiency w)
     (petrol_price w) (DEFAULT_FUEL_EFFICIENCY w) (DEFAULT_PETROL_PRICE w)
     (db w).
Definition set_trips (v : list Trip.t) (w : t) : t :=
  mk (balance w) v (fuel_logs w) (current_fuel w) (fuel_efficiency w)
     (petrol_price w) (DEFAULT_FUEL_EFFICIENCY w) (DEFAULT_PETROL_PRICE w)
     (db w).
Definition set_fuel_logs (v : list FuelLog.t) (w : t) : t :=
  mk (balance w) (trips w) v (current_fuel w) (fuel_efficiency w)
     (petrol_price w) (DEFAULT_FUEL_EFFICIENCY w) (DEFAULT_PETROL_PRICE w)
     (db w).
Definition set_current_fuel (v : float) (w : t) : t :=
  mk (balance w) (trips w) (fuel_logs w) v (fuel_efficiency w)
     (petrol_price w) (DEFAULT_FUEL_EFFICIENCY w) (DEFAULT_PETROL_PRICE w)
     (db w).
Definition set_fuel_efficiency (v : float) (w : t) : t :=
  mk (balance w) (trips w) (fuel_logs w) (current_fuel w) v (petrol_price w)
     (DEFAULT_FUEL_EFFICIENCY w) (DEFAULT_PETROL_PRICE w) (db w).
Definition set_petrol_price (v : float) (w : t) : t :=
  mk (balance w) (trips w) (fuel_logs w) (current_fuel w)
     (fuel_efficiency w) v (DEFAULT_FUEL_EFFICIENCY w) (DEFAULT_PETROL_PRICE w)
     (db w).
Definition set_DEFAULT_FUEL_EFFICIENCY (v : float) (w : t) : t :=
  mk (balance w) (trips w) (fuel_logs w) (current_fuel w)
     (fuel_efficiency w) (petrol_price w) v (DEFAULT_PETROL_PRICE w) (db w).
Definition set_DEFAULT_PETROL_PRICE (v : float) (w : t) : t :=
  mk (balance w) (trips w) (fuel_logs w) (current_fuel w)
     (fuel_efficiency w) (petrol_price w) (DEFAULT_FUEL_EFFICIENCY w) v (db w).
Definition set_db (v : Db.t) (w : t) : t :=
  mk (balance w) (trips w) (fuel_logs w) (current_fuel w)
     (fuel_efficiency w) (petrol_price w) (DEFAULT_FUEL_EFFICIENCY w)
     (DEFAULT_PETROL_PRICE w) v.

End UberWallet.


(** ** Message boxes *)

(** The text of a message box: a literal, [str(e)] for a caught
    exception, or [f"An error occurred: {e}"]. *)
Inductive message : Type :=
  | Text (text : string)
  | StrOf (e : exn)
  | AnErrorOccurred (e : exn).

Inductive notice : Type :=
  | showerror (title : string) (text : message)
  | showinfo (title : string) (text : message).

(** How a handler ends: after a message box, silently, or with an
    exception that nothing catches.  The box is the last one shown: the
    "Database Error" box that [save_data] may show on the way is the
    second component of [save_data]. *)
Inductive outcome : Type :=
  | Shown (n : notice)
  | Quiet
  | Uncaught (e : exn).

Definition MAX_TANK_CAPACITY : float := 60.

(** ** Validation of entry texts *)

Inductive validated : Type :=
  | Valid (value : float)
  | Invalid (shown : notice).

Section Entries.

(** [float(text)] on the text of an entry; [None] stands for its
    [ValueError]. *)
Variable py_float : string -> option float.

(** [validate_positive_float(value, field_name)]: the float, or [None]
    after the error box. *)
Definition validate_positive_float (value : string) (field_name : option string)
  : validated :=
  match py_float value with
  | None => Invalid (showerror "Error" (StrOf (ValueError (NotAFloat value))))
  | Some v =>
      if PrimFloat.ltb v 0
      then Invalid (showerror "Error"
                      (StrOf (ValueError (CannotBeNegative field_name))))
      else Valid v
  end.

End Entries.

(** ** The fuel dialogue *)

Module FuelDialog.

(** The widgets of the dialogue when Save is pressed; [edit_id] is the
    id of the log being edited, [None] for a new one. *)
Record t : Type := mk {
  date_entry : Date.date;
  hour_var : string;
  minute_var : string;
  station_entry : string;
  location_entry : string;
  amount_entry : string;
  price_entry : string;
  edit_id : option Z
}.

(** How the check of the refuel time against the wall clock ends: the
    time in [%H:%M] form, or one of the three error boxes. *)
Inductive time_check : Type :=
  | TimeOk (refuel_time_formatted : string)
  | InFuture
  | InvalidTime
  | UnknownTimeZone.

Section OnSave.

Variable py_float : string -> option float.

(** The time block of [on_save] applied to the text
    [f"{date_str} {hour_str}:{minute_str}"]: it parses the text,
    places it in the Nairobi time zone and compares it with the
    current time. *)
Variable clock : string -> time_check.

Definition error_box (text : string) : option FuelLog.t * outcome :=
  (None, Shown (showerror "Error" (Text text))).

(** [on_save]: the value of [self.result] afterwards and how the
    handler ended. *)
Definition on_save (d : t) : option FuelLog.t * outcome :=
  let date_str := Date.strftime (date_entry d) in
  let station := Text.strip (station_entry d) in
  let location := Text.strip (location_entry d) in
  match validate_positive_float py_float (amount_entry d) (Some "Amount"%string) with
  | Invalid n => (None, Shown n)
  | Valid amount =>
  match validate_positive_float py_float (price_entry d)
          (Some "Price per Liter"%string) with
  | Invalid n => (None, Shown n)
  | Valid price =>
  if negb (Text.truthy station) then error_box "Station name is required."
  else if negb (Text.truthy location) then error_box "Location is required."
  else
    match clock (date_str ++ " " ++ hour_var d ++ ":" ++ minute_var d)%string with
    | InFuture => error_box "Refuel time cannot be in the future."
    | InvalidTime => error_box "Invalid time format."
    | UnknownTimeZone =>
        error_box "Timezone information could not be determined."
    | TimeOk refuel_time_formatted =>
        match PyFloat.truediv amount price with
        | Raise e => (None, Shown (showerror "Error" (AnErrorOccurred e)))
        | Ok liters =>
            if PrimFloat.ltb MAX_TANK_CAPACITY liters
            then error_box "Fuel added exceeds tank capacity."
            else
              (Some (FuelLog.mk (edit_id d) date_str refuel_time_formatted
                       station location amount price liters),
               Quiet)
        end
    end
  end
  end.

End OnSave.

End FuelDialog.

(** ** Ledgers and persistence *)

Definition recalculate_current_fuel (w : UberWallet.t) : UberWallet.t :=
  let total_refueled := PyFloat.sum (map FuelLog.liters (UberWallet.fuel_logs w)) in
  let total_used := PyFloat.sum (map Trip.fuel_used (UberWallet.trips w)) in
  UberWallet.set_current_fuel (total_refueled - total_used)%float w.

Definition recalculate_balance_and_fuel (w : UberWallet.t) : UberWallet.t :=
  recalculate_current_fuel
    (UberWallet.set_balance
       (PyFloat.sum (map Trip.trip_balance (UberWallet.trips w))) w).

(** [save_data]: the wallet afterwards and the box shown, if any.  The
    transaction is committed, or its error is shown in a "Database Error"
    box and the connection is closed without a commit, which leaves the
    file as it was. *)
Definition save_data (w : UberWallet.t) : UberWallet.t * option notice :=
  match Sqlite.transaction (UberWallet.trips w) (UberWallet.fuel_logs w)
          (UberWallet.db w) with
  | inl d => (UberWallet.set_db d w, None)
  | inr e =>
      (w, Some (showerror "Database Error"
                  (Text ("Could not save data: " ++ Sqlite.str e))))
  end.

Definition load_data (trip_offset trip_limit fuel_offset fuel_limit : Z)
    (w : UberWallet.t) : UberWallet.t :=
  let w := UberWallet.set_trips
             (Db.select_trips trip_limit trip_offset (UberWallet.db w)) w in
  let w := UberWallet.set_balance
             (PyFloat.sum (map Trip.trip_balance (UberWallet.trips w))) w in
  let w := UberWallet.set_fuel_logs
             (Db.select_fuel_logs fuel_limit fuel_offset (UberWallet.db w)) w in
  let total_refueled := PyFloat.sum (map FuelLog.liters (UberWallet.fuel_logs w)) in
  let total_used := PyFloat.sum (map Trip.fuel_used (UberWallet.trips w)) in
  UberWallet.set_current_fuel (total_refueled - total_used)%float w.

(** [load_data()] as [__init__] calls it: the defaults of the four
    parameters. *)
Definition load_data_default : UberWallet.t -> UberWallet.t := load_data 0 100 0 100.

(** [UberWallet(root)] up to the user interface: the attributes of a new
    object over the given database file, then [load_data()].  The module
    constants start at 25 and 180.0. *)
Definition init (database : Db.t) : UberWallet.t :=
  load_data_default (UberWallet.mk 0 [] [] 0 25 180 25 180 database).

Definition is_duplicate_trip (w : UberWallet.t) (new_trip : Trip.t) : bool :=
  (0 <? Db.count_matching (Trip.date new_trip) (Trip.time new_trip)
          (Trip.distance_km new_trip) (Trip.fare new_trip) (UberWallet.db w))%nat.

(** The loop of [recalculate_trip_data]: the trips are recomputed in
    place one after the other; an exception leaves the later ones
    untouched. *)
Fixpoint recalculate_each (fuel_efficiency petrol_price : float) (trips : list Trip.t)
  : list Trip.t * option exn :=
  match trips with
  | [] => ([], None)
  | trip :: rest =>
      match Metrics.calculate fuel_efficiency petrol_price trip with
      | (trip', Some e) => (trip' :: rest, Some e)
      | (trip', None) =>
          let (rest', e) := recalculate_each fuel_efficiency petrol_price rest in
          (trip' :: rest', e)
      end
  end.

Definition recalculate_trip_data (w : UberWallet.t) : UberWallet.t * option exn :=
  match recalculate_each (UberWallet.DEFAULT_FUEL_EFFICIENCY w)
          (UberWallet.DEFAULT_PETROL_PRICE w) (UberWallet.trips w) with
  | (trips', Some e) => (UberWallet.set_trips trips' w, Some e)
  | (trips', None) => (fst (save_data (UberWallet.set_trips trips' w)), None)
  end.

Definition save_settings (w : UberWallet.t) : UberWallet.t * outcome :=
  let new_fuel_efficiency := UberWallet.fuel_efficiency w in
  let new_petrol_price := UberWallet.petrol_price w in
  if PrimFloat.leb new_fuel_efficiency 0 || PrimFloat.leb new_petrol_price 0
  then (w, Shown (showerror "Error" (StrOf (ValueError NotPositiveSettings))))
  else
    let w := UberWallet.set_DEFAULT_FUEL_EFFICIENCY new_fuel_efficiency w in
    let w := UberWallet.set_DEFAULT_PETROL_PRICE new_petrol_price w in
    match recalculate_trip_data w with
    | (w', Some e) => (w', Uncaught e)
    | (w', None) => (w', Shown (showinfo "Success" (Text "Settings saved successfully!")))
    end.

(** ** Adding, editing and deleting trips *)

(** The six entries of the trip dialogues, in the order of [fields]. *)
Module TripEntries.

Record t : Type := mk {
  cash_collected : string;
  fare : string;
  service_fee : string;
  taxes : string;
  distance_km : string;
  tips : string
}.

End TripEntries.

Section TripDialogues.

Variable py_float : string -> option float.

(** One round of the loop over [entries.items()]: an empty entry counts
    as [0.0]; [fields_dict.get(key)] is [None], the dictionary being
    keyed by the labels. *)
Definition entry_value (value_str : string) : validated :=
  if Text.truthy value_str then validate_positive_float py_float value_str None
  else Valid 0.

(** The loop over the entries, then the two checks on the required
    fields: the dictionary with its six inputs, or the error box. *)
Definition read_entries (entries : TripEntries.t) (trip : Trip.t) : Trip.t + notice :=
  match entry_value (TripEntries.cash_collected entries) with
  | Invalid n => inr n
  | Valid cash_collected =>
  match entry_value (TripEntries.fare entries) with
  | Invalid n => inr n
  | Valid fare =>
  match entry_value (TripEntries.service_fee entries) with
  | Invalid n => inr n
  | Valid service_fee =>
  match entry_value (TripEntries.taxes entries) with
  | Invalid n => inr n
  | Valid taxes =>
  match entry_value (TripEntries.distance_km entries) with
  | Invalid n => inr n
  | Valid distance_km =>
  match entry_value (TripEntries.tips entries) with
  | Invalid n => inr n
  | Valid tips =>
      let trip :=
        Trip.set_tips tips
          (Trip.set_distance_km distance_km
             (Trip.set_taxes taxes
                (Trip.set_service_fee service_fee
                   (Trip.set_fare fare
                      (Trip.set_cash_collected cash_collected trip))))) in
      if negb (PrimFloat.leb 0 (Trip.distance_km trip))
      then inr (showerror "Error" (Text "Distance cannot be negative."))
      else if negb (PrimFloat.leb 0 (Trip.fare trip))
      then inr (showerror "Error" (Text "Fare cannot be negative."))
      else inl trip
  end end end end end end.

(** [save_trip], the Save handler of the dialogue that [add_trip]
    opens, for the chosen date and times. *)
Definition save_trip (date start_time end_time duration : string)
    (entries : TripEntries.t) (w : UberWallet.t) : UberWallet.t * outcome :=
  match read_entries entries (Trip.blank None date start_time end_time duration) with
  | inr n => (w, Shown n)
  | inl trip =>
      match Metrics.calculate (UberWallet.fuel_efficiency w)
              (UberWallet.petrol_price w) trip with
      | (_, Some e) => (w, Shown (showerror "Error" (AnErrorOccurred e)))
      | (trip, None) =>
          if is_duplicate_trip w trip
          then (w, Shown (showerror "Error"
                            (Text "Duplicate trip detected - not saved")))
          else
            let w := UberWallet.set_balance
                       (UberWallet.balance w + Trip.trip_balance trip)%float w in
            let w := UberWallet.set_trips (trip :: UberWallet.trips w) w in
            let w := UberWallet.set_current_fuel
                       (UberWallet.current_fuel w - Trip.fuel_used trip)%float w in
            (fst (save_data w),
             Shown (showinfo "Success" (Text "Trip added successfully!")))
      end
  end.

(** [edit_selected_trip] with its Update handler [update_trip]:
    [selection] is the selected row of the table, if any, and
    [time_info] the result of the time dialogue. *)
Definition edit_selected_trip (selection : option nat)
    (time_info : option (string * string * string)) (entries : TripEntries.t)
    (w : UberWallet.t) : UberWallet.t * outcome :=
  match selection with
  | None => (w, Shown (showinfo "Info" (Text "Please select a trip to edit.")))
  | Some selected_index =>
  match UberWallet.trips w !! selected_index with
  | None => (w, Uncaught IndexError)
  | Some trip_to_edit =>
  match time_info with
  | None => (w, Quiet)
  | Some (start_time, duration, end_time) =>
  match Trip.id trip_to_edit with
  | None => (w, Shown (showerror "Error" (AnErrorOccurred (KeyError "id"))))
  | Some trip_id =>
  match read_entries entries
          (Trip.blank (Some trip_id) (Trip.date trip_to_edit) start_time end_time
             duration) with
  | inr n => (w, Shown n)
  | inl updated_trip =>
      match Metrics.calculate (UberWallet.fuel_efficiency w)
              (UberWallet.petrol_price w) updated_trip with
      | (_, Some e) => (w, Shown (showerror "Error" (AnErrorOccurred e)))
      | (updated_trip, None) =>
          let w := UberWallet.set_trips
                     (<[selected_index := updated_trip]> (UberWallet.trips w)) w in
          let w := recalculate_balance_and_fuel w in
          let w := UberWallet.set_db
                     (Db.update_trip trip_id updated_trip (UberWallet.db w)) w in
          (w, Shown (showinfo "Success" (Text "Trip updated successfully!")))
      end
  end end end end end.

(** [delete_selected_trip]; [confirmed] is the answer to the
    confirmation box. *)
Definition delete_selected_trip (selection : option nat) (confirmed : bool)
    (w : UberWallet.t) : UberWallet.t * outcome :=
  match selection with
  | None => (w, Shown (showinfo "Info" (Text "Please select a trip to delete.")))
  | Some selected_index =>
  match UberWallet.trips w !! selected_index with
  | None => (w, Uncaught IndexError)
  | Some trip_to_delete =>
      if negb confirmed then (w, Quiet)
      else
        let w := UberWallet.set_trips (delete selected_index (UberWallet.trips w)) w in
        match Trip.id trip_to_delete with
        | None => (w, Uncaught (KeyError "id"))
        | Some trip_id =>
            let w := UberWallet.set_db (Db.delete_trip trip_id (UberWallet.db w)) w in
            let w := recalculate_balance_and_fuel w in
            (w, Shown (showinfo "Success" (Text "Trip deleted successfully!")))
        end
  end end.

End TripDialogues.

(** ** Adding, editing and deleting fuel logs *)

(** [add_fuel]; [result] is what the fuel dialogue left in
    [dialog.result]. *)
Definition add_fuel (result : option FuelLog.t) (w : UberWallet.t)
  : UberWallet.t * outcome :=
  match result with
  | None => (w, Quiet)
  | Some log =>
      if PrimFloat.ltb MAX_TANK_CAPACITY (FuelLog.liters log)
      then (w, Shown (showerror "Error" (Text "Fuel added exceeds tank capacity.")))
      else
        let w := UberWallet.set_fuel_logs (log :: UberWallet.fuel_logs w) w in
        let w := recalculate_current_fuel w in
        (fst (save_data w),
         Shown (showinfo "Success" (Text "Fuel refill recorded!")))
  end.

(** [edit_selected_fuel_log]; the dialogue is opened on the selected
    log, so its result carries that log's id. *)
Definition edit_selected_fuel_log (selection : option nat)
    (dialog : FuelLog.t -> option FuelLog.t) (w : UberWallet.t)
  : UberWallet.t * outcome :=
  match selection with
  | None => (w, Shown (showinfo "Info" (Text "Please select a fuel log to edit.")))
  | Some selected_index =>
  match UberWallet.fuel_logs w !! selected_index with
  | None => (w, Uncaught IndexError)
  | Some log_to_edit =>
      match dialog log_to_edit with
      | None => (w, Quiet)
      | Some result =>
          let w := UberWallet.set_fuel_logs
                     (<[selected_index := result]> (UberWallet.fuel_logs w)) w in
          let w := recalculate_current_fuel w in
          let w := UberWallet.set_db (Db.update_fuel_log result (UberWallet.db w)) w in
          (w, Shown (showinfo "Success" (Text "Fuel log updated successfully!")))
      end
  end end.

Definition delete_selected_fuel_log (selection : option nat) (confirmed : bool)
    (w : UberWallet.t) : UberWallet.t * outcome :=
  match selection with
  | None => (w, Shown (showinfo "Info" (Text "Please select a fuel log to delete.")))
  | Some selected_index =>
  match UberWallet.fuel_logs w !! selected_index with
  | None => (w, Uncaught IndexError)
  | Some log_to_delete =>
      if negb confirmed then (w, Quiet)
      else
        let w := UberWallet.set_fuel_logs
                   (delete selected_index (UberWallet.fuel_logs w)) w in
        let w := UberWallet.set_db
                   (Db.delete_fuel_log (FuelLog.id log_to_delete) (UberWallet.db w)) w in
        let w := recalculate_current_fuel w in
        (w, Shown (showinfo "Success" (Text "Fuel log deleted successfully!")))
  end end.

(** ** Period reports *)

Module Report.
Local Open Scope string_scope.

Definition nl : string := String (ascii_of_nat 10) EmptyString.

Definition no_data : string := "No trip data available.".
Definition no_day : string := "Please select a date for the daily report.".
Definition no_week : string :=
  "Please select start and end dates for the weekly report.".
Definition no_month : string :=
  "Please select month and year for the monthly report.".
Definition invalid_type : string := "Invalid report type.".
Definition no_trips_in_period : string := "No trips found for the selected period.".

(** Truth value of an optional integer argument: [None] and [0] are
    false. *)
Definition truthy_int (n : option Z) : option Z :=
  match n with
  | Some 0%Z => None
  | _ => n
  end.

(** A list comprehension over the trips whose condition parses the
    date of every trip; the first date that does not parse raises. *)
Fixpoint select_by_date (p : Date.date -> bool) (trips : list Trip.t)
  : result (list Trip.t) :=
  match trips with
  | [] => Ok []
  | trip :: rest =>
      let* d := Date.strptime (Trip.date trip) in
      let* selected := select_by_date p rest in
      Ok (if p d then trip :: selected else selected)
  end.

(** The text built from the title and the filtered trips. *)
Definition render (report_title : string) (filtered_trips : list Trip.t) : string :=
  let total_earnings := PyFloat.sum (map Trip.earnings filtered_trips) in
  let total_distance := PyFloat.sum (map Trip.distance_km filtered_trips) in
  let total_fuel_cost := PyFloat.sum (map Trip.estimated_fuel_cost filtered_trips) in
  nl ++ report_title ++ nl ++
  Text.replicate (String.length report_title) "=" ++ nl ++
  "Total Trips: " ++ Text.of_Z (Z.of_nat (length filtered_trips)) ++ nl ++
  "Total Distance: " ++ Text.format_fixed 1 total_distance ++ " km" ++ nl ++
  "Total Earnings: KES " ++ Text.format_fixed 2 total_earnings ++ nl ++
  "Estimated Total Fuel Cost: KES " ++ Text.format_fixed 2 total_fuel_cost ++ nl ++
  "Net Earnings (Earnings - Estimated Fuel Cost): KES " ++
  Text.format_fixed 2 (total_earnings - total_fuel_cost)%float ++ nl.

Definition finish (report_title : string) (filtered_trips : list Trip.t) : string :=
  match filtered_trips with
  | [] => no_trips_in_period
  | _ => render report_title filtered_trips
  end.

(** [generate_report(report_type, start_date, end_date, month, year,
    day)] over [self.trips]. *)
Definition generate_report (trips : list Trip.t) (report_type : string)
    (start_date end_date : option Date.date) (month year : option Z)
    (day : option Date.date) : result string :=
  match trips with
  | [] => Ok no_data
  | _ =>
      if String.eqb report_type "daily" then
        match day with
        | Some day =>
            let date_str := Date.strftime day in
            Ok (finish ("Daily Report for " ++ date_str)
                  (List.filter (fun trip => String.eqb (Trip.date trip) date_str)
                     trips))
        | None => Ok no_day
        end
      else if String.eqb report_type "weekly" then
        match start_date, end_date with
        | Some start_date, Some end_date =>
            let* filtered_trips :=
              select_by_date
                (fun d => Date.leb start_date d && Date.leb d end_date) trips in
            Ok (finish ("Weekly Report for " ++ Date.strftime start_date ++
                        " to " ++ Date.strftime end_date) filtered_trips)
        | _, _ => Ok no_week
        end
      else if String.eqb report_type "monthly" then
        match truthy_int month, truthy_int year with
        | Some month, Some year =>
            let* filtered_trips :=
              select_by_date
                (fun d => (Date.year d =? year)%Z && (Date.month d =? month)%Z)
                trips in
            Ok (finish ("Monthly Report for " ++ Text.format_02d month ++ "/" ++
                        Text.of_Z year) filtered_trips)
        | _, _ => Ok no_month
        end
      else Ok invalid_type
  end.

End Report.

(** ** Plain decimal numerals *)

(** [float(text)] on the texts made of decimal digits with at most one
    point among them, such as ["1000"], ["60.01"] or [".5"]: the double
    nearest to the decimal value.  The worked examples read their entries
    with it; the general statements hold for any reading of the
    entries. *)
Module Numeral.

Fixpoint digits (cs : list ascii) (acc : Z) : option Z :=
  match cs with
  | [] => Some acc
  | c :: cs' =>
      match Date.digit c with
      | Some d => digits cs' (10 * acc + d)
      | None => None
      end
  end.

Fixpoint split_point (cs : list ascii) : list ascii * option (list ascii) :=
  match cs with
  | [] => ([], None)
  | c :: cs' =>
      if Ascii.eqb c "." then ([], Some cs')
      else let (whole, frac) := split_point cs' in (c :: whole, frac)
  end.

Definition to_float (text : string) : option float :=
  let (whole, frac) := split_point (list_ascii_of_string text) in
  let frac := match frac with Some f => f | None => [] end in
  match whole ++ frac with
  | [] => None
  | all =>
      match digits all 0 with
      | Some n => Some (PyFloat.of_decimal false n (Z.of_nat (length frac)))
      | None => None
      end
  end.

End Numeral.

(** * The specification's wording *)

(** The definitions of this part follow the specification, not the
    program; the properties below compare the two. *)
Module Spec.

(** The derived fields of section 4.2. *)
Record derived : Type := mkDerived {
  earnings : float;
  trip_balance : float;
  discount : float;
  discount_rate : float;
  earnings_per_km : float;
  fuel_used : float;
  estimated_fuel_cost : float;
  service_fee_percent : float;
  taxes_percent : float
}.

Definition is_zero (x : float) : bool := PrimFloat.eqb x 0.

(** [deriveTripMetrics(trip_inputs, fuel_efficiency, petrol_price)],
    formula by formula. *)
Definition deriveTripMetrics
    (cash_collected fare service_fee taxes distance_km tips : float)
    (fuel_efficiency petrol_price : float) : derived :=
  let earnings := (fare - (service_fee + taxes) + tips)%float in
  let discount := (fare - cash_collected)%float in
  let fuel_used :=
    if is_zero distance_km then 0%float
    else PyFloat.round2 (distance_km / fuel_efficiency)%float in
  mkDerived
    earnings
    (fare - (cash_collected + service_fee + taxes))%float
    discount
    (if is_zero fare then 0%float
     else PyFloat.round2 (discount / fare * 100)%float)
    (if is_zero distance_km then 0%float
     else PyFloat.round2 (earnings / distance_km)%float)
    fuel_used
    (PyFloat.round2 (fuel_used * petrol_price)%float)
    (if is_zero fare then 0%float
     else PyFloat.round2 (service_fee / fare * 100)%float)
    (if is_zero fare then 0%float
     else PyFloat.round2 (taxes / fare * 100)%float).

(** [currentBalance(trips) = sum(trips.trip_balance)] *)
Definition currentBalance (trips : list Trip.t) : float :=
  PyFloat.sum (map Trip.trip_balance trips).

(** [currentFuelLevel(trips, fuel_logs) = sum(fuel_logs.liters) -
    sum(trips.fuel_used)] *)
Definition currentFuelLevel (trips : list Trip.t) (fuel_logs : list FuelLog.t)
  : float :=
  (PyFloat.sum (map FuelLog.liters fuel_logs) -
   PyFloat.sum (map Trip.fuel_used trips))%float.

(** The duplicate rule: the same (date, start time, distance_km, fare). *)
Definition same_key (a b : Trip.t) : Prop :=
  Trip.date a = Trip.date b /\ Trip.time a = Trip.time b /\
  PrimFloat.eqb (Trip.distance_km a) (Trip.distance_km b) = true /\
  PrimFloat.eqb (Trip.fare a) (Trip.fare b) = true.

(** The three filter modes of the report aggregator. *)
Inductive period : Type :=
  | Daily (day : Date.date)
  | Weekly (start_date end_date : Date.date)
  | Monthly (month year : Z).

(** Exact date match, inclusive date range, year and month match. *)
Definition in_period (p : period) (trip : Trip.t) : bool :=
  match p with
  | Daily day => String.eqb (Trip.date trip) (Date.strftime day)
  | Weekly start_date end_date =>
      match Date.strptime (Trip.date trip) with
      | Ok d => Date.leb start_date d && Date.leb d end_date
      | Raise _ => false
      end
  | Monthly month year =>
      match Date.strptime (Trip.date trip) with
      | Ok d => (Date.year d =? year)%Z && (Date.month d =? month)%Z
      | Raise _ => false
      end
  end.

(** The aggregate record of a period report. *)
Record aggregate : Type := mkAggregate {
  trip_count : nat;
  total_distance : float;
  total_earnings : float;
  total_fuel_cost : float;
  net_earnings : float
}.

(** The totals are sums of the stored per-trip fields; the net earnings
    are the total earnings minus the total fuel cost. *)
Definition aggregate_of (selected : list Trip.t) : aggregate :=
  let total_earnings := PyFloat.sum (map Trip.earnings selected) in
  let total_fuel_cost := PyFloat.sum (map Trip.estimated_fuel_cost selected) in
  mkAggregate (length selected)
    (PyFloat.sum (map Trip.distance_km selected))
    total_earnings total_fuel_cost
    (total_earnings - total_fuel_cost)%float.

End Spec.

(** ** Between the program and the specification *)

(** The trip [trip] with its nine derived keys holding [d]. *)
Definition with_derived (trip : Trip.t) (d : Spec.derived) : Trip.t :=
  Trip.mk (Trip.id trip) (Trip.date trip) (Trip.time trip) (Trip.end_time trip)
    (Trip.duration trip) (Trip.cash_collected trip) (Trip.fare trip)
    (Trip.service_fee trip) (Trip.taxes trip) (Trip.distance_km trip)
    (Trip.tips trip)
    (Spec.earnings d) (Spec.trip_balance d) (Spec.discount d)
    (Spec.discount_rate d) (Spec.earnings_per_km d) (Spec.fuel_used d)
    (Spec.estimated_fuel_cost d) (Spec.service_fee_percent d)
    (Spec.taxes_percent d).

(** Section 4.2 applied to the inputs that [trip] holds. *)
Definition derive (fuel_efficiency petrol_price : float) (trip : Trip.t) : Spec.derived :=
  Spec.deriveTripMetrics (Trip.cash_collected trip) (Trip.fare trip)
    (Trip.service_fee trip) (Trip.taxes trip) (Trip.distance_km trip)
    (Trip.tips trip) fuel_efficiency petrol_price.

(** The nine derived keys of a stored trip. *)
Definition derived_of (trip : Trip.t) : Spec.derived :=
  Spec.mkDerived (Trip.earnings trip) (Trip.trip_balance trip) (Trip.discount trip)
    (Trip.discount_rate trip) (Trip.earnings_per_km trip) (Trip.fuel_used trip)
    (Trip.estimated_fuel_cost trip) (Trip.service_fee_percent trip)
    (Trip.taxes_percent trip).

(** What [Metrics.calculate] leaves in the dictionary when the division
    by the fuel efficiency raises: the first five derived keys are
    written, the last four are as they were. *)
Definition interrupted (trip : Trip.t) : Trip.t :=
  let d := derive 1 1 trip in
  Trip.mk (Trip.id trip) (Trip.date trip) (Trip.time trip) (Trip.end_time trip)
    (Trip.duration trip) (Trip.cash_collected trip) (Trip.fare trip)
    (Trip.service_fee trip) (Trip.taxes trip) (Trip.distance_km trip)
    (Trip.tips trip)
    (Spec.earnings d) (Spec.trip_balance d) (Spec.discount d)
    (Spec.discount_rate d) (Spec.earnings_per_km d) (Trip.fuel_used trip)
    (Trip.estimated_fuel_cost trip) (Trip.service_fee_percent trip)
    (Trip.taxes_percent trip).

(** The whole list recomputed, every trip from its own inputs. *)
Definition rederived (fe pp : float) (trips : list Trip.t) : list Trip.t :=
  map (fun trip => with_derived trip (derive fe pp trip)) trips.

(** The division by the fuel efficiency is the only one that a trip's
    own fields do not guard: it is reached when the distance is not zero,
    and is safe when the efficiency is not zero. *)
Definition division_safe (fuel_efficiency : float) (trip : Trip.t) : Prop :=
  PyFloat.truthy (Trip.distance_km trip) = true ->
  PrimFloat.eqb fuel_efficiency 0 = false.

(** The three ways the user interface calls [generate_report]. *)
Definition report_for (p : Spec.period) (trips : list Trip.t) : result string :=
  match p with
  | Spec.Daily day =>
      Report.generate_report trips "daily" None None None None (Some day)
  | Spec.Weekly start_date end_date =>
      Report.generate_report trips "weekly" (Some start_date) (Some end_date)
        None None None
  | Spec.Monthly month year =>
      Report.generate_report trips "monthly" None None (Some month) (Some year) None
  end.

Definition report_title (p : Spec.period) : string :=
  match p with
  | Spec.Daily day => "Daily Report for " ++ Date.strftime day
  | Spec.Weekly start_date end_date =>
      "Weekly Report for " ++ Date.strftime start_date ++ " to " ++
      Date.strftime end_date
  | Spec.Monthly month year =>
      "Monthly Report for " ++ Text.format_02d month ++ "/" ++ Text.of_Z year
  end%string.

(** The text of a report that shows the aggregate [a] under [title]. *)
Definition report_text (title : string) (a : Spec.aggregate) : string :=
  (Report.nl ++ title ++ Report.nl ++
   Text.replicate (String.length title) "=" ++ Report.nl ++
   "Total Trips: " ++ Text.of_Z (Z.of_nat (Spec.trip_count a)) ++ Report.nl ++
   "Total Distance: " ++ Text.format_fixed 1 (Spec.total_distance a) ++ " km" ++
   Report.nl ++
   "Total Earnings: KES " ++ Text.format_fixed 2 (Spec.total_earnings a) ++
   Report.nl ++
   "Estimated Total Fuel Cost: KES " ++
   Text.format_fixed 2 (Spec.total_fuel_cost a) ++ Report.nl ++
   "Net Earnings (Earnings - Estimated Fuel Cost): KES " ++
   Text.format_fixed 2 (Spec.net_earnings a) ++ Report.nl)%string.

(** Every trip's date text parses. *)
Definition dates_parse (trips : list Trip.t) : Prop :=
  Forall (fun trip => exists d, Date.strptime (Trip.date trip) = Ok d) trips.

(** The month and the year of a monthly request are given: neither is
    zero. *)
Definition period_given (p : Spec.period) : Prop :=
  match p with
  | Spec.Monthly month year => month <> 0 /\ year <> 0
  | _ => True
  end.

(** The keys of a trip that a report reads. *)
Definition same_stored_fields (a b : Trip.t) : Prop :=
  Trip.date a = Trip.date b /\ Trip.distance_km a = Trip.distance_km b /\
  Trip.earnings a = Trip.earnings b /\
  Trip.estimated_fuel_cost a = Trip.estimated_fuel_cost b.

(** The trip of the worked example of section 8, whatever its texts and
    the earlier contents of its derived keys. *)
Definition example_trip (i : option Z) (d tm e du : string) (old : Spec.derived)
  : Trip.t :=
  with_derived (Trip.mk i d tm e du 800 1000 100 50 10 20 0 0 0 0 0 0 0 0 0) old.


(** ** Worked examples *)

(** A database file with empty tables. *)
Definition empty_db : Db.t := Db.mk [] 0 [] 0.

(** The entries of the worked example of section 8. *)
Definition example_entries : TripEntries.t :=
  TripEntries.mk "800" "1000" "100" "50" "10" "20".

(** A free ride of no length: every input is zero. *)
Definition zero_trip : Trip.t :=
  Trip.blank None "2024-05-01" "10:00" "10:00" "00:00:00".

(** The wallet after the worked example's trip has been added to an empty
    database. *)
Definition example_wallet : UberWallet.t :=
  fst (save_trip Numeral.to_float "2024-05-01" "10:00" "10:30" "00:30:00"
         example_entries (init empty_db)).

(** A ten-minute trip of the given distance with a fare of 100, nothing
    else paid or kept, derived under the default settings. *)
Definition short_trip (time : string) (distance_km : float) : Trip.t :=
  let trip := Trip.mk None "2024-05-01" time time "00:10:00"
                0 100 0 0 distance_km 0 0 0 0 0 0 0 0 0 0 in
  with_derived trip (derive 25 180 trip).

(** A purchase of ten litres. *)
Definition ten_litres : FuelLog.t :=
  FuelLog.mk None "2024-05-01" "08:00" "Shell" "Nairobi" 1800 180 10.

(** A wallet holding the given trips and fuel logs, its two ledgers not
    computed yet. *)
Definition wallet_of (trips : list Trip.t) (fuel_logs : list FuelLog.t)
  : UberWallet.t :=
  UberWallet.mk 0 trips fuel_logs 0 25 180 25 180 empty_db.

(** Entries for a trip of the given distance and a fare of 100. *)
Definition entries_of_distance (distance_km : string) : TripEntries.t :=
  TripEntries.mk "0" "100" "0" "0" distance_km "0".

(** Both ledgers are what the whole-list reductions give. *)
Definition ledgers_recomputed (w : UberWallet.t) : Prop :=
  UberWallet.balance w = Spec.currentBalance (UberWallet.trips w) /\
  UberWallet.current_fuel w
    = Spec.currentFuelLevel (UberWallet.trips w) (UberWallet.fuel_logs w).

(** The fuel ledger is what its whole-list reduction gives. *)
Definition fuel_recomputed (w : UberWallet.t) : Prop :=
  UberWallet.current_fuel w
    = Spec.currentFuelLevel (UberWallet.trips w) (UberWallet.fuel_logs w).

(** A session that changes the fuel efficiency between two trips: ten
    litres bought, a trip of 25 km, the efficiency set to 50 and saved, a
    trip of 50 km. *)
Definition session_with_settings_change : UberWallet.t :=
  let w := fst (add_fuel (Some ten_litres) (init empty_db)) in
  let w := fst (save_trip Numeral.to_float "2024-05-01" "10:00" "10:30" "00:30:00"
                  (entries_of_distance "25") w) in
  let w := fst (save_settings (UberWallet.set_fuel_efficiency 50 w)) in
  fst (save_trip Numeral.to_float "2024-05-02" "11:00" "12:00" "01:00:00"
         (entries_of_distance "50") w).

(** A purchase of a litre and a half. *)
Definition small_refill : FuelLog.t :=
  FuelLog.mk None "2024-05-01" "08:00" "Shell" "Nairobi" 270 180 1.5.

(** Three short trips, of 2.5, 5 and 7.5 km: they use 0.1, 0.2 and 0.3
    litres. *)
Definition three_trips : list Trip.t :=
  [short_trip "09:00" 2.5; short_trip "10:00" 5; short_trip "11:00" 7.5].

(** The weekly and monthly filters parse the date of every trip; the
    daily filter compares texts. *)
Definition dates_readable (p : Spec.period) (trips : list Trip.t) : Prop :=
  match p with
  | Spec.Daily _ => True
  | _ => dates_parse trips
  end.

(** A trip reduced to the four keys that a report reads. *)
Definition report_view (trip : Trip.t) : Trip.t :=
  Trip.mk None (Trip.date trip) "" "" "" 0 0 0 0 (Trip.distance_km trip) 0
    (Trip.earnings trip) 0 0 0 0 0 (Trip.estimated_fuel_cost trip) 0 0.

(** The fuel dialogue filled in for a purchase at 08:00 on 1 May 2024,
    with the given amount and price entries. *)
Definition example_dialog (amount price : string) : FuelDialog.t :=
  FuelDialog.mk (Date.mkDate 2024 5 1) "08" "00" "Shell" " Nairobi " amount price None.

(** A wall clock late enough for that purchase not to lie in the
    future. *)
Definition example_clock (refuel_datetime_str : string) : FuelDialog.time_check :=
  FuelDialog.TimeOk "08:00".

(** The entries of a fuel dialogue pass every check that comes before the
    division: the amount and the price read as numbers that are not below
    zero, the station and the location are not blank, the time is fine. *)
Definition fuel_entries_read (py_float : string -> option float)
    (clock : string -> FuelDialog.time_check) (d : FuelDialog.t)
    (amount price : float) (refuel_time : string) : Prop :=
  py_float (FuelDialog.amount_entry d) = Some amount /\
  PrimFloat.ltb amount 0 = false /\
  py_float (FuelDialog.price_entry d) = Some price /\
  PrimFloat.ltb price 0 = false /\
  Text.truthy (Text.strip (FuelDialog.station_entry d)) = true /\
  Text.truthy (Text.strip (FuelDialog.location_entry d)) = true /\
  clock (Date.strftime (FuelDialog.date_entry d) ++ " " ++ FuelDialog.hour_var d ++
         ":" ++ FuelDialog.minute_var d)%string
    = FuelDialog.TimeOk refuel_time.

(** The fuel log that the dialogue produces from these values. *)
Definition fuel_log_of (d : FuelDialog.t) (amount price : float)
    (refuel_time : string) : FuelLog.t :=
  FuelLog.mk (FuelDialog.edit_id d) (Date.strftime (FuelDialog.date_entry d))
    refuel_time (Text.strip (FuelDialog.station_entry d))
    (Text.strip (FuelDialog.location_entry d)) amount price (amount / price)%float.


(** A trip with a balance of one, for counting. *)
Definition unit_trip : Trip.t :=
  Trip.mk None "2024-05-01" "10:00" "10:30" "00:30:00"
    0 1 0 0 0 0 1 1 1 100 0 0 0 0 0.

(** A database whose trips table holds 101 such trips. *)
Definition crowded_db : Db.t :=
  Db.mk (fst (Db.insert_all Db.set_trip_id 0 (repeat unit_trip 101))) 101 [] 0.

(** Entries for a trip of five kilometres with the given fare, nothing of
    it collected in cash. *)
Definition entries_of_fare (fare : string) : TripEntries.t :=
  TripEntries.mk "0" fare "0" "0" "5" "0".

(** Three trips added one after the other to an empty database, with
    fares of 100.1, 200.2 and 300.3. *)
Definition session_of_three_adds : UberWallet.t :=
  let w := fst (save_trip Numeral.to_float "2024-05-01" "09:00" "09:30" "00:30:00"
                  (entries_of_fare "100.1") (init empty_db)) in
  let w := fst (save_trip Numeral.to_float "2024-05-01" "10:00" "10:30" "00:30:00"
                  (entries_of_fare "200.2") w) in
  fst (save_trip Numeral.to_float "2024-05-01" "11:00" "11:30" "00:30:00"
         (entries_of_fare "300.3") w).

(** ** Checks used for the round trip of dates *)

(** The year [y] prints as four digits that read back as [y]. *)
Definition year_prints (y : Z) : bool :=
  match list_ascii_of_string (Text.zfill 4 (Text.of_Z y)) with
  | [c1; c2; c3; c4] =>
      match Date.digit c1, Date.digit c2, Date.digit c3, Date.digit c4 with
      | Some a, Some b, Some c, Some d => (1000 * a + 100 * b + 10 * c + d =? y)%Z
      | _, _, _, _ => false
      end
  | _ => false
  end.

(** What follows the year in the text of a date with month [m] and day
    [dd]. *)
Definition after_year (m dd : Z) : string :=
  ("-" ++ Text.zfill 2 (Text.of_Z m) ++ "-" ++ Text.zfill 2 (Text.of_Z dd))%string.

(** That text reads back as the month [m] and the day [dd]. *)
Definition after_year_reads (m dd : Z) : bool :=
  match list_ascii_of_string (after_year m dd) with
  | h :: rest =>
      Ascii.eqb h "-" &&
      match Date.upto_hyphen rest with
      | Some (mtok, dtok) =>
          match Date.month_token mtok, Date.day_token dtok with
          | Some m', Some dd' => (m' =? m)%Z && (dd' =? dd)%Z
          | _, _ => false
          end
      | None => false
      end
  | [] => false
  end.

(** The [count] integers from [first] on. *)
Definition Z_range (first count : Z) : list Z :=
  map (fun n => first + Z.of_nat n)%Z (seq 0 (Z.to_nat count)).

(** ** The save of the wallet *)

(** The trip can be inserted: its fare and its distance are numbers. *)
Definition insertable (trip : Trip.t) : Prop :=
  PrimFloat.is_nan (Trip.fare trip) = false /\
  PrimFloat.is_nan (Trip.distance_km trip) = false.

(** The save of the wallet would be committed: no box is shown. *)
Definition committed (w : UberWallet.t) : Prop := snd (save_data w) = None.

(** The wallet once [save_trip] has put the new trip first and updated
    the two ledgers by it. *)
Definition with_new_trip (trip : Trip.t) (w : UberWallet.t) : UberWallet.t :=
  UberWallet.set_current_fuel (UberWallet.current_fuel w - Trip.fuel_used trip)%float
    (UberWallet.set_trips (trip :: UberWallet.trips w)
       (UberWallet.set_balance
          (UberWallet.balance w + Trip.trip_balance trip)%float w)).

(** ** Sessions that the properties below evaluate *)

(** The wallet after a purchase of ten litres has been entered into the
    fuel dialogue and recorded, on a database with empty tables. *)
Definition refuelled : UberWallet.t :=
  fst (add_fuel
         (fst (FuelDialog.on_save Numeral.to_float example_clock
                 (example_dialog "1800" "180")))
         (init empty_db)).

(** That wallet after the trip of the worked example has been entered,
    and after it has been entered a second time. *)
Definition entered_once : UberWallet.t :=
  fst (save_trip Numeral.to_float "2024-05-01" "10:00" "10:30" "00:30:00"
         example_entries refuelled).

Definition entered_twice : UberWallet.t :=
  fst (save_trip Numeral.to_float "2024-05-01" "10:00" "10:30" "00:30:00"
         example_entries entered_once).

(** Entries for a trip of five kilometres with a fare of 100 of which 50
    were collected in cash: its balance is 50. *)
Definition entries_with_cash : TripEntries.t :=
  TripEntries.mk "50" "100" "0" "0" "5" "0".

(** On a database with empty tables: such a trip is added, selected and
    deleted, and a second such trip, an hour later, is added. *)
Definition session_with_a_deletion : UberWallet.t :=
  let w := fst (save_trip Numeral.to_float "2024-05-01" "09:00" "09:30" "00:30:00"
                  entries_with_cash (init empty_db)) in
  let w := fst (delete_selected_trip (Some 0%nat) true w) in
  fst (save_trip Numeral.to_float "2024-05-01" "10:00" "10:30" "00:30:00"
         entries_with_cash w).

(** The wallet of a new run on a database with empty tables, the fuel
    efficiency entry of the settings tab holding 0. *)
Definition no_efficiency : UberWallet.t :=
  UberWallet.set_fuel_efficiency 0 (init empty_db).

(** Entries for a free trip of ten kilometres. *)
Definition free_ride_entries : TripEntries.t :=
  TripEntries.mk "0" "0" "0" "0" "10" "0".

(** The trip that these entries describe, before its derived keys are
    computed. *)
Definition free_ride : Trip.t :=
  Trip.set_distance_km 10 (Trip.blank None "2024-05-01" "10:00" "10:30" "00:30:00").
(** * Properties *)

(** ** The model of the built-ins against the interpreter *)

(** The values on the right are those that CPython gives for [round(x,
    2)], for the [.2f] and [.1f] formats, for [02d], for [str.strip] and
    for [strptime] with [%Y-%m-%d]. *)
Example round2_examples :
  map PyFloat.round2
    [0x1.5666666666666p+1; 0x1p-3; 0x1.8p-2; 0x1.0147ae147ae14p+0;
     (-0x1.0624dd2f1a9fcp-10); 0x1.999999999999ap-2; 0x1.2000000000001p+6;
     0x1.c6bf526340002p+49; 0x1.4b0e5ab2c0001p+46; 0x0.0000000000001p-1022;
     0x1.fffffffffffffp+1023; 0x1.47ae147ae147bp-8; 0x1.eb851eb851eb8p-7;
     0x1.0aaaaaaaaaaaap+5; 0x1.5555555555555p-1; 0x1.47ae147ae147cp+46;
     0x1.fd7082491afc0p-1; 0x1.8ffae147ae148p+6; 0x1.0f0cf064dd592p+73]%float
  = [0x1.55c28f5c28f5cp+1; 0x1.eb851eb851eb8p-4; 0x1.851eb851eb852p-2; 0x1p+0;
     (-0x0p+0); 0x1.999999999999ap-2; 0x1.2p+6;
     0x1.c6bf526340002p+49; 0x1.4b0e5ab2c0001p+46; 0x0p+0;
     0x1.fffffffffffffp+1023; 0x1.47ae147ae147bp-7; 0x1.47ae147ae147bp-7;
     0x1.0aa3d70a3d70ap+5; 0x1.570a3d70a3d71p-1; 0x1.47ae147ae147cp+46;
     0x1.fae147ae147aep-1; 0x1.9p+6; 0x1.0f0cf064dd592p+73]%float.
Proof. vm_compute. reflexivity. Qed.

Example format_examples :
  (map (Text.format_fixed 2)
    [0x1.5666666666666p+1; 0x1p-3; (-0x1.0624dd2f1a9fcp-10); 0x1.c6bf526340002p+49;
     0x1.8ffae147ae148p+6; 0x1.0f0cf064dd592p+73; nan; neg_infinity;
     0x1.47ae147ae147bp-8]%float,
   map (Text.format_fixed 1)
    [0x1.5666666666666p+1; 0x1p-3; 0x1.eb851eb851eb8p-7; 0x1.c12218377de6bp+46]%float,
   map Text.format_02d [5; 12; -3; 123; 0],
   map Text.strip ["  a b  "; "   "; ""; "x"]%string)
  = (["2.67"; "0.12"; "-0.00"; "1000000000000000.25"; "100.00";
      "10000000000000000000000.00"; "nan"; "-inf"; "0.01"],
     ["2.7"; "0.1"; "0.0"; "123456789012345.7"],
     ["05"; "12"; "-3"; "123"; "00"],
     ["a b"; ""; ""; "x"])%string.
Proof. vm_compute. reflexivity. Qed.

Example strptime_examples :
  map Date.strptime ["2024-02-29"; "2023-02-29"; "2024-1-5"; "2024-12-31";
                     "2024-13-01"; "2024-01-32"; "2024-01-311"; "24-01-01";
                     "2024/01/01"; "2024-01- 7"; "0000-01-01"; "2024-00-10";
                     "2024-10-3"; ""]%string
  = [Ok (Date.mkDate 2024 2 29); Raise (ValueError (BadDate "2023-02-29"));
     Ok (Date.mkDate 2024 1 5); Ok (Date.mkDate 2024 12 31);
     Raise (ValueError (BadDate "2024-13-01")); Raise (ValueError (BadDate "2024-01-32"));
     Raise (ValueError (BadDate "2024-01-311")); Raise (ValueError (BadDate "24-01-01"));
     Raise (ValueError (BadDate "2024/01/01")); Ok (Date.mkDate 2024 1 7);
     Raise (ValueError (BadDate "0000-01-01"));
     Raise (ValueError (BadDate "2024-00-10")); Ok (Date.mkDate 2024 10 3);
     Raise (ValueError (BadDate ""))].
Proof. vm_compute. reflexivity. Qed.

Example strftime_examples :
  map Date.strftime [Date.mkDate 2024 2 29; Date.mkDate 1999 12 1]
  = ["2024-02-29"; "1999-12-01"]%string.
Proof. vm_compute. reflexivity. Qed.

(** ** The derived fields *)

Lemma truediv_truthy (a b : float) :
  PyFloat.truthy b = true -> PyFloat.truediv a b = Ok (a / b)%float.
Proof.
  unfold PyFloat.truthy, PyFloat.truediv.
  destruct (PrimFloat.eqb b 0); [discriminate | reflexivity].
Qed.

Lemma calculate_derive (fe pp : float) (trip : Trip.t) :
  (PyFloat.truthy (Trip.distance_km trip) = true -> PrimFloat.eqb fe 0 = false) ->
  Metrics.calculate fe pp trip = (with_derived trip (derive fe pp trip), None).
Proof.
  intros Hfe. destruct trip as [i d tm e du cash fare fee tax dist tips
                                  x1 x2 x3 x4 x5 x6 x7 x8 x9].
  unfold Metrics.calculate, derive, Spec.deriveTripMetrics, Spec.is_zero, with_derived.
  cbn [Trip.distance_km] in Hfe. cbn -[PyFloat.round2 PrimFloat.eqb].
  unfold PyFloat.truthy, PyFloat.truediv in *.
  destruct (PrimFloat.eqb fare 0) eqn:Hfare;
  destruct (PrimFloat.eqb dist 0) eqn:Hdist;
  try rewrite (Hfe eq_refl);
  repeat (cbn -[PyFloat.round2 PrimFloat.eqb]; rewrite ?Hfare, ?Hdist);
  reflexivity.
Qed.

Lemma calculate_fault (fe pp : float) (trip : Trip.t) :
  PyFloat.truthy (Trip.distance_km trip) = true -> PrimFloat.eqb fe 0 = true ->
  Metrics.calculate fe pp trip = (interrupted trip, Some ZeroDivisionError).
Proof.
  intros Hd Hfe. destruct trip as [i d tm e du cash fare fee tax dist tips
                                     x1 x2 x3 x4 x5 x6 x7 x8 x9].
  unfold Metrics.calculate, interrupted, derive, Spec.deriveTripMetrics, Spec.is_zero.
  cbn [Trip.distance_km] in Hd. unfold PyFloat.truthy in Hd.
  destruct (PrimFloat.eqb dist 0) eqn:Hdist; [discriminate |].
  destruct (PrimFloat.eqb fare 0) eqn:Hfare;
  repeat (cbn -[PyFloat.round2 PrimFloat.eqb];
          unfold PyFloat.truthy, PyFloat.truediv; rewrite ?Hfare, ?Hdist, ?Hfe);
  reflexivity.
Qed.

Lemma calculate_ok_iff (fe pp : float) (trip trip' : Trip.t) :
  Metrics.calculate fe pp trip = (trip', None) <->
  (PyFloat.truthy (Trip.distance_km trip) = true -> PrimFloat.eqb fe 0 = false) /\
  trip' = with_derived trip (derive fe pp trip).
Proof.
  split.
  - intros H.
    assert (Hg : PyFloat.truthy (Trip.distance_km trip) = true ->
                 PrimFloat.eqb fe 0 = false).
    { intros Hd. destruct (PrimFloat.eqb fe 0) eqn:Hfe; [| reflexivity].
      rewrite calculate_fault in H by assumption. discriminate. }
    rewrite calculate_derive in H by exact Hg.
    injection H as <-. split; [exact Hg | reflexivity].
  - intros [Hg ->]. apply calculate_derive, Hg.
Qed.

Lemma calculate_raises (fe pp : float) (trip trip' : Trip.t) (e : exn) :
  Metrics.calculate fe pp trip = (trip', Some e) ->
  e = ZeroDivisionError /\ PrimFloat.eqb fe 0 = true /\
  PyFloat.truthy (Trip.distance_km trip) = true /\ trip' = interrupted trip.
Proof.
  intros H.
  destruct (PyFloat.truthy (Trip.distance_km trip)) eqn:Hd.
  - destruct (PrimFloat.eqb fe 0) eqn:Hfe.
    + rewrite calculate_fault in H by assumption. injection H as <- <-. auto.
    + rewrite calculate_derive in H by (intros _; exact Hfe). discriminate.
  - rewrite calculate_derive in H by (rewrite Hd; discriminate). discriminate.
Qed.

Lemma derive_with_derived (fe pp : float) (trip : Trip.t) (d : Spec.derived) :
  derive fe pp (with_derived trip d) = derive fe pp trip.
Proof. reflexivity. Qed.

Lemma with_derived_twice (trip : Trip.t) (d d' : Spec.derived) :
  with_derived (with_derived trip d) d' = with_derived trip d'.
Proof. reflexivity. Qed.

Lemma derived_of_with_derived (trip : Trip.t) (d : Spec.derived) :
  derived_of (with_derived trip d) = d.
Proof. destruct d; reflexivity. Qed.

Lemma recalculate_each_ok_iff (fe pp : float) (trips trips' : list Trip.t) :
  recalculate_each fe pp trips = (trips', None) <->
  Forall (division_safe fe) trips /\
  trips' = rederived fe pp trips.
Proof.
  revert trips'. induction trips as [| trip rest IH]; intros trips'; cbn [recalculate_each].
  - split.
    + intros H. inversion H. split; [constructor | reflexivity].
    + intros [_ ->]. reflexivity.
  - destruct (Metrics.calculate fe pp trip) as [t' [e |]] eqn:Hc.
    + split; [discriminate |]. intros [Hall _].
      apply calculate_raises in Hc as (_ & Hfe & Hd & _).
      inversion Hall as [| ? ? Hhd _]; subst. rewrite (Hhd Hd) in Hfe. discriminate.
    + apply calculate_ok_iff in Hc as [Hg ->].
      destruct (recalculate_each fe pp rest) as [rest' e] eqn:Hr.
      split.
      * intros H. inversion H; subst.
        destruct (IH rest') as [IH1 _]. destruct (IH1 eq_refl) as [Hall ->].
        split; [constructor; assumption | reflexivity].
      * intros [Hall ->]. inversion Hall as [| ? ? _ Hrest]; subst.
        destruct (IH (rederived fe pp rest)) as [_ IH2].
        specialize (IH2 (conj Hrest eq_refl)). inversion IH2. reflexivity.
Qed.

Lemma rederived_idempotent (fe pp : float) (trips : list Trip.t) :
  rederived fe pp (rederived fe pp trips) = rederived fe pp trips.
Proof.
  unfold rederived. rewrite map_map. apply map_ext. intros trip.
  rewrite derive_with_derived. apply with_derived_twice.
Qed.

Lemma validate_invalid_is_error (py_float : string -> option float)
    (value : string) (field_name : option string) (n : notice) :
  validate_positive_float py_float value field_name = Invalid n ->
  exists m, n = showerror "Error" m.
Proof.
  unfold validate_positive_float.
  destruct (py_float value) as [v |]; [destruct (PrimFloat.ltb v 0) |];
    intros H; inversion H; eauto.
Qed.

Lemma entry_value_invalid_is_error (py_float : string -> option float)
    (value_str : string) (n : notice) :
  entry_value py_float value_str = Invalid n -> exists m, n = showerror "Error" m.
Proof.
  unfold entry_value. destruct (Text.truthy value_str); [| discriminate].
  apply validate_invalid_is_error.
Qed.

Lemma read_entries_error (py_float : string -> option float)
    (entries : TripEntries.t) (trip : Trip.t) (n : notice) :
  read_entries py_float entries trip = inr n -> exists m, n = showerror "Error" m.
Proof.
  unfold read_entries.
  repeat match goal with
         | |- context [entry_value py_float ?x] =>
             let E := fresh "E" in
             destruct (entry_value py_float x) eqn:E;
             [| apply entry_value_invalid_is_error in E; destruct E as [m ->];
                intros H; inversion H; eauto]
         end.
  repeat match goal with
         | |- context [if ?b then _ else _] => destruct b
         end; intros H; inversion H; eauto.
Qed.

(** The inputs that [read_entries] wrote are the only keys it changed,
    and the two required ones are not below zero. *)
Lemma read_entries_inputs (py_float : string -> option float)
    (entries : TripEntries.t) (trip trip' : Trip.t) :
  read_entries py_float entries trip = inl trip' ->
  Trip.id trip' = Trip.id trip /\ Trip.date trip' = Trip.date trip /\
  Trip.time trip' = Trip.time trip /\
  PrimFloat.leb 0 (Trip.distance_km trip') = true /\
  PrimFloat.leb 0 (Trip.fare trip') = true.
Proof.
  unfold read_entries.
  repeat match goal with
         | |- context [entry_value py_float ?x] =>
             destruct (entry_value py_float x); [| discriminate]
         end.
  destruct trip; cbn.
  repeat match goal with
         | |- context [if negb ?b then _ else _] => destruct b eqn:?; cbn
         end; intros H; inversion H; subst; cbn; auto.
Qed.

(** ** What [save_data] writes *)

Lemma prepare_insert_trips :
  Sqlite.prepare_insert Sqlite.TRIP_FIELDS Sqlite.trip_placeholders = None.
Proof. reflexivity. Qed.

Lemma prepare_insert_fuel_logs :
  Sqlite.prepare_insert Sqlite.FUEL_LOG_FIELDS Sqlite.fuel_log_placeholders
  = Some (Sqlite.OperationalError "6 values for 7 columns").
Proof. vm_compute. reflexivity. Qed.

Lemma not_null_None (trip : Trip.t) :
  Sqlite.not_null trip = None <-> insertable trip.
Proof.
  unfold Sqlite.not_null, insertable.
  destruct (PrimFloat.is_nan (Trip.fare trip));
    destruct (PrimFloat.is_nan (Trip.distance_km trip)); split;
    try discriminate; try tauto; intros [? ?]; discriminate.
Qed.

Lemma insert_trips_inl (seq : Z) (trips : list Trip.t) (x : list Trip.t * Z) :
  Sqlite.insert_trips seq trips = inl x <->
  Forall insertable trips /\
  x = Db.insert_all Db.set_trip_id seq (map Db.stored_trip trips).
Proof.
  revert seq x. induction trips as [| trip rest IH]; intros seq x;
    cbn [Sqlite.insert_trips List.map].
  - split.
    + intros H. injection H as <-. split; [constructor | reflexivity].
    + intros [_ ->]. reflexivity.
  - rewrite prepare_insert_trips. cbn [Db.insert_all].
    destruct (Sqlite.not_null trip) as [e |] eqn:Hnn.
    + split; [discriminate |]. intros [Hall _]. inversion Hall as [| ? ? Hi _]; subst.
      apply not_null_None in Hi. rewrite Hi in Hnn. discriminate.
    + apply not_null_None in Hnn.
      destruct (Sqlite.insert_trips (seq + 1) rest) as [[rows seq'] | e] eqn:Hrest.
      * destruct (proj1 (IH _ _) Hrest) as [Hall Heq]. rewrite <- Heq.
        split.
        -- intros H. injection H as <-. split; [constructor; assumption | reflexivity].
        -- intros [_ ->]. reflexivity.
      * split; [discriminate |]. intros [Hall _]. inversion Hall as [| ? ? _ Hr]; subst.
        pose proof (proj2 (IH (seq + 1) _) (conj Hr eq_refl)) as H.
        rewrite Hrest in H. discriminate.
Qed.

Lemma insert_fuel_logs_inl (seq : Z) (logs : list FuelLog.t) (x : list FuelLog.t * Z) :
  Sqlite.insert_fuel_logs seq logs = inl x <-> logs = [] /\ x = ([], seq).
Proof.
  destruct logs as [| log rest]; cbn [Sqlite.insert_fuel_logs].
  - split.
    + intros H. injection H as <-. auto.
    + intros [_ ->]. reflexivity.
  - rewrite prepare_insert_fuel_logs. split; [discriminate | intros [H _]; discriminate].
Qed.

Lemma insert_fuel_logs_inr (seq : Z) (logs : list FuelLog.t) (e : Sqlite.error) :
  Sqlite.insert_fuel_logs seq logs = inr e ->
  logs <> [] /\ e = Sqlite.OperationalError "6 values for 7 columns".
Proof.
  destruct logs as [| log rest]; cbn [Sqlite.insert_fuel_logs]; [discriminate |].
  rewrite prepare_insert_fuel_logs. intros H. injection H as <-.
  split; [discriminate | reflexivity].
Qed.

Lemma insert_all_length {A : Type} (set_id : option Z -> A -> A) (seq : Z)
    (records : list A) :
  length (fst (Db.insert_all set_id seq records)) = length records /\
  snd (Db.insert_all set_id seq records) = seq + Z.of_nat (length records).
Proof.
  revert seq. induction records as [| r rest IH]; intros seq; cbn [Db.insert_all].
  - cbn. split; [reflexivity | lia].
  - specialize (IH (seq + 1)).
    destruct (Db.insert_all set_id (seq + 1) rest) as [rows seq']. cbn in *.
    destruct IH as [-> ->]. split; [reflexivity | lia].
Qed.

(** The database after a committed save of the given trips. *)
Lemma transaction_inl (trips : list Trip.t) (fuel_logs : list FuelLog.t) (d d' : Db.t) :
  Sqlite.transaction trips fuel_logs d = inl d' <->
  fuel_logs = [] /\ Forall insertable trips /\
  d' = Db.mk (fst (Db.insert_all Db.set_trip_id (Db.trips_seq d)
                     (map Db.stored_trip trips)))
         (Db.trips_seq d + Z.of_nat (length trips)) [] (Db.fuel_logs_seq d).
Proof.
  unfold Sqlite.transaction.
  pose proof (insert_all_length Db.set_trip_id (Db.trips_seq d)
                (map Db.stored_trip trips)) as [_ Hseq].
  rewrite length_map in Hseq.
  destruct (Sqlite.insert_trips (Db.trips_seq d) trips) as [[rows seq'] | e] eqn:Ht.
  - apply insert_trips_inl in Ht as [Hall Heq]. rewrite <- Heq in *. cbn in Hseq.
    destruct (Sqlite.insert_fuel_logs (Db.fuel_logs_seq d) fuel_logs)
      as [[lrows lseq] | e] eqn:Hl.
    + apply insert_fuel_logs_inl in Hl as [-> Hx]. injection Hx as -> ->.
      split.
      * intros H. injection H as <-. subst seq'. auto.
      * intros (_ & _ & ->). subst seq'. reflexivity.
    + apply insert_fuel_logs_inr in Hl as [Hne _].
      split; [discriminate | intros [-> _]; destruct Hne; reflexivity].
  - split; [discriminate |]. intros (_ & Hall & _).
    pose proof (proj2 (insert_trips_inl (Db.trips_seq d) trips _) (conj Hall eq_refl)) as H.
    rewrite Ht in H. discriminate.
Qed.

Lemma transaction_inr (trips : list Trip.t) (fuel_logs : list FuelLog.t) (d : Db.t)
    (e : Sqlite.error) :
  Sqlite.transaction trips fuel_logs d = inr e ->
  Forall insertable trips ->
  fuel_logs <> [] /\ e = Sqlite.OperationalError "6 values for 7 columns".
Proof.
  unfold Sqlite.transaction. intros H Hall.
  pose proof (proj2 (insert_trips_inl (Db.trips_seq d) trips _) (conj Hall eq_refl)) as Ht.
  rewrite Ht in H.
  destruct (Db.insert_all Db.set_trip_id (Db.trips_seq d) (map Db.stored_trip trips))
    as [rows seq'].
  destruct (Sqlite.insert_fuel_logs (Db.fuel_logs_seq d) fuel_logs)
    as [[lrows lseq] | e'] eqn:Hl; [discriminate |].
  injection H as <-. apply insert_fuel_logs_inr in Hl. exact Hl.
Qed.

(** [save_data] changes nothing but the database. *)
Lemma save_data_memory (w : UberWallet.t) :
  exists d, fst (save_data w) = UberWallet.set_db d w.
Proof.
  unfold save_data.
  destruct (Sqlite.transaction _ _ _) as [d | e]; cbn.
  - exists d. reflexivity.
  - exists (UberWallet.db w). destruct w; reflexivity.
Qed.

Lemma committed_iff (w : UberWallet.t) :
  committed w <->
  UberWallet.fuel_logs w = [] /\ Forall insertable (UberWallet.trips w).
Proof.
  unfold committed, save_data.
  destruct (Sqlite.transaction _ _ _) as [d | e] eqn:Ht; cbn.
  - apply transaction_inl in Ht as (Hl & Hall & _). tauto.
  - split; [discriminate |]. intros [Hl Hall].
    apply transaction_inr in Ht as [Hne _]; [| exact Hall]. destruct (Hne Hl).
Qed.

Lemma save_data_committed (w : UberWallet.t) :
  committed w ->
  save_data w
  = (UberWallet.set_db
       (Db.mk (fst (Db.insert_all Db.set_trip_id (Db.trips_seq (UberWallet.db w))
                      (map Db.stored_trip (UberWallet.trips w))))
          (Db.trips_seq (UberWallet.db w) + Z.of_nat (length (UberWallet.trips w)))
          [] (Db.fuel_logs_seq (UberWallet.db w))) w,
     None).
Proof.
  unfold committed, save_data.
  destruct (Sqlite.transaction _ _ _) as [d | e] eqn:Ht; cbn; [| discriminate].
  intros _. apply transaction_inl in Ht as (_ & _ & ->). reflexivity.
Qed.

Lemma save_data_not_committed (w : UberWallet.t) :
  ~ committed w ->
  exists e,
    save_data w
    = (w, Some (showerror "Database Error"
                  (Text ("Could not save data: " ++ Sqlite.str e)))).
Proof.
  unfold committed, save_data.
  destruct (Sqlite.transaction _ _ _) as [d | e] eqn:Ht; cbn.
  - intros H. destruct H. reflexivity.
  - intros _. exists e. reflexivity.
Qed.

Lemma save_data_with_fuel_logs (w : UberWallet.t) :
  UberWallet.fuel_logs w <> [] -> Forall insertable (UberWallet.trips w) ->
  save_data w
  = (w, Some (showerror "Database Error"
                (Text "Could not save data: 6 values for 7 columns"))).
Proof.
  intros Hne Hall. unfold save_data.
  destruct (Sqlite.transaction _ _ _) as [d | e] eqn:Ht.
  - apply transaction_inl in Ht as (Hl & _). destruct (Hne Hl).
  - apply transaction_inr in Ht as [_ ->]; [reflexivity | exact Hall].
Qed.

Lemma trips_of_save_data (w : UberWallet.t) :
  UberWallet.trips (fst (save_data w)) = UberWallet.trips w.
Proof. destruct (save_data_memory w) as [d ->]. destruct w; reflexivity. Qed.

(** The list, the ledgers and the settings after [save_data] are those
    before it. *)
Lemma save_data_keeps (w : UberWallet.t) :
  UberWallet.trips (fst (save_data w)) = UberWallet.trips w /\
  UberWallet.fuel_logs (fst (save_data w)) = UberWallet.fuel_logs w /\
  UberWallet.balance (fst (save_data w)) = UberWallet.balance w /\
  UberWallet.current_fuel (fst (save_data w)) = UberWallet.current_fuel w.
Proof. destruct (save_data_memory w) as [d ->]. destruct w; repeat split. Qed.

(** What a successful [save_trip] did. *)
Lemma save_trip_success (py_float : string -> option float)
    (date start_time end_time duration : string) (entries : TripEntries.t)
    (w w' : UberWallet.t) (text : message) :
  save_trip py_float date start_time end_time duration entries w
    = (w', Shown (showinfo "Success" text)) ->
  exists trip0 trip,
    read_entries py_float entries (Trip.blank None date start_time end_time duration)
      = inl trip0 /\
    Metrics.calculate (UberWallet.fuel_efficiency w) (UberWallet.petrol_price w) trip0
      = (trip, None) /\
    is_duplicate_trip w trip = false /\
    w' = fst (save_data (with_new_trip trip w)).
Proof.
  unfold save_trip.
  destruct (read_entries py_float entries _) as [trip0 | n] eqn:Hread.
  - destruct (Metrics.calculate _ _ trip0) as [trip [e |]] eqn:Hcalc;
      [discriminate |].
    destruct (is_duplicate_trip w trip) eqn:Hdup; [discriminate |].
    intros H. injection H as <- _. exists trip0, trip. auto.
  - apply read_entries_error in Hread as [m ->]. discriminate.
Qed.

(** What a successful [edit_selected_trip] did. *)
Lemma edit_trip_success (py_float : string -> option float)
    (selection : option nat) (time_info : option (string * string * string))
    (entries : TripEntries.t) (w w' : UberWallet.t) (text : message) :
  edit_selected_trip py_float selection time_info entries w
    = (w', Shown (showinfo "Success" text)) ->
  exists i old start_time duration end_time trip_id trip0 trip,
    selection = Some i /\ UberWallet.trips w !! i = Some old /\
    time_info = Some (start_time, duration, end_time) /\
    Trip.id old = Some trip_id /\
    read_entries py_float entries
      (Trip.blank (Some trip_id) (Trip.date old) start_time end_time duration)
      = inl trip0 /\
    Metrics.calculate (UberWallet.fuel_efficiency w) (UberWallet.petrol_price w) trip0
      = (trip, None) /\
    w' = UberWallet.set_db
           (Db.update_trip trip_id trip (UberWallet.db w))
           (recalculate_balance_and_fuel
              (UberWallet.set_trips (<[i := trip]> (UberWallet.trips w)) w)).
Proof.
  unfold edit_selected_trip.
  destruct selection as [i |]; [| discriminate].
  destruct (UberWallet.trips w !! i) as [old |] eqn:Hold; [| discriminate].
  destruct time_info as [[[start_time duration] end_time] |]; [| discriminate].
  destruct (Trip.id old) as [trip_id |] eqn:Hid; [| discriminate].
  destruct (read_entries py_float entries _) as [trip0 | n] eqn:Hread.
  - destruct (Metrics.calculate _ _ trip0) as [trip [e |]] eqn:Hcalc;
      [discriminate |].
    intros H. injection H as <- _.
    exists i, old, start_time, duration, end_time, trip_id, trip0, trip.
    destruct w; auto 10.
  - apply read_entries_error in Hread as [m ->]. discriminate.
Qed.

Lemma recalculate_trip_data_ok_iff (w w' : UberWallet.t) :
  recalculate_trip_data w = (w', None) <->
  Forall (division_safe (UberWallet.DEFAULT_FUEL_EFFICIENCY w)) (UberWallet.trips w) /\
  w' = fst (save_data
              (UberWallet.set_trips
                 (rederived (UberWallet.DEFAULT_FUEL_EFFICIENCY w)
                    (UberWallet.DEFAULT_PETROL_PRICE w) (UberWallet.trips w)) w)).
Proof.
  unfold recalculate_trip_data.
  destruct (recalculate_each _ _ _) as [trips' [e |]] eqn:Hr.
  - split; [discriminate |]. intros [Hall _].
    pose proof (proj2 (recalculate_each_ok_iff _ (UberWallet.DEFAULT_PETROL_PRICE w) _ _)
                  (conj Hall eq_refl)) as H.
    rewrite H in Hr. discriminate.
  - apply recalculate_each_ok_iff in Hr as [Hall ->].
    split.
    + intros H. injection H as <-. auto.
    + intros [_ ->]. reflexivity.
Qed.

Lemma division_safe_of_nonzero (fe : float) (trip : Trip.t) :
  PrimFloat.eqb fe 0 = false -> division_safe fe trip.
Proof. intros H _. exact H. Qed.

(** C1. Every trip that [save_trip] or [edit_selected_trip] accepts, and
    every trip that [recalculate_trip_data] has gone through, holds in its
    nine derived keys the values of the formulas of section 4.2 on its own
    inputs: the earnings are [fare - (service_fee + taxes) + tips] with no
    rounding, and so on, the settings being the two settings variables for
    the first two and the module constants for the third; the
    recalculation goes through whenever the efficiency constant is not
    zero.  On the trip with fare 1000, cash 800, fee 100, taxes 50, tips 20
    and 10 km under 25 km per litre and 180 per litre the nine values are
    870, 50, 200, 20.0, 87.0, 0.4, 72.0, 10.0 and 5.0. *)
Theorem C1_derived_fields_follow_the_formulas :
  (forall py_float date start_time end_time duration entries w w' text,
      save_trip py_float date start_time end_time duration entries w
        = (w', Shown (showinfo "Success" text)) ->
      exists trip,
        UberWallet.trips w' = trip :: UberWallet.trips w /\
        derived_of trip
          = derive (UberWallet.fuel_efficiency w) (UberWallet.petrol_price w) trip /\
        Spec.earnings (derived_of trip)
          = (Trip.fare trip - (Trip.service_fee trip + Trip.taxes trip)
             + Trip.tips trip)%float) /\
  (forall py_float selection time_info entries w w' text,
      edit_selected_trip py_float selection time_info entries w
        = (w', Shown (showinfo "Success" text)) ->
      exists i trip,
        selection = Some i /\ UberWallet.trips w' !! i = Some trip /\
        derived_of trip
          = derive (UberWallet.fuel_efficiency w) (UberWallet.petrol_price w) trip) /\
  (forall w w',
      recalculate_trip_data w = (w', None) ->
      UberWallet.trips w'
        = rederived (UberWallet.DEFAULT_FUEL_EFFICIENCY w)
            (UberWallet.DEFAULT_PETROL_PRICE w) (UberWallet.trips w) /\
      Forall (fun trip =>
                derived_of trip
                  = derive (UberWallet.DEFAULT_FUEL_EFFICIENCY w)
                      (UberWallet.DEFAULT_PETROL_PRICE w) trip)
        (UberWallet.trips w')) /\
  (forall w,
      PrimFloat.eqb (UberWallet.DEFAULT_FUEL_EFFICIENCY w) 0 = false ->
      exists w', recalculate_trip_data w = (w', None)) /\
  (forall i d tm e du old,
      Metrics.calculate 25 180 (example_trip i d tm e du old)
        = (example_trip i d tm e du
             (Spec.mkDerived 870 50 200 20 87 0.4 72 10 5), None)).
Proof.
  split; [| split; [| split; [| split]]].
  - intros py_float date start_time end_time duration entries w w' text H.
    apply save_trip_success in H as (trip0 & trip & _ & Hcalc & _ & ->).
    apply calculate_ok_iff in Hcalc as [_ ->]. rewrite trips_of_save_data.
    eexists. split; [destruct w; reflexivity |].
    rewrite derived_of_with_derived, derive_with_derived. split; reflexivity.
  - intros py_float selection time_info entries w w' text H.
    apply edit_trip_success in H
      as (i & old & st & du & et & trip_id & trip0 & trip & -> & Hold & _ & _ & _
          & Hcalc & ->).
    apply calculate_ok_iff in Hcalc as [_ ->].
    exists i, (with_derived trip0
                 (derive (UberWallet.fuel_efficiency w) (UberWallet.petrol_price w)
                    trip0)).
    split; [reflexivity |]. split.
    + destruct w; cbn. apply list_lookup_insert_eq.
      cbn in Hold. eapply lookup_lt_Some, Hold.
    + rewrite derived_of_with_derived, derive_with_derived. reflexivity.
  - intros w w' H. apply recalculate_trip_data_ok_iff in H as [_ ->].
    rewrite trips_of_save_data. destruct w; cbn. split; [reflexivity |].
    unfold rederived. apply List.Forall_forall. intros trip Hin.
    apply in_map_iff in Hin as (t & <- & _).
    rewrite derived_of_with_derived, derive_with_derived. reflexivity.
  - intros w Hfe. eexists. apply recalculate_trip_data_ok_iff. split; [| reflexivity].
    apply List.Forall_forall. intros trip _. apply division_safe_of_nonzero, Hfe.
  - intros i d tm e du old.
    rewrite calculate_derive by (intros _; reflexivity).
    unfold example_trip. rewrite with_derived_twice. reflexivity.
Qed.

Lemma C1_witness :
  exists trip,
    UberWallet.trips
      (fst (save_trip Numeral.to_float "2024-05-01" "10:00" "10:30" "00:30:00"
              example_entries (init empty_db)))
      = trip :: UberWallet.trips (init empty_db) /\
    derived_of trip = derive 25 180 trip /\
    Spec.earnings (derived_of trip)
      = (Trip.fare trip - (Trip.service_fee trip + Trip.taxes trip)
         + Trip.tips trip)%float.
Proof.
  apply (proj1 C1_derived_fields_follow_the_formulas Numeral.to_float
           "2024-05-01"%string "10:00"%string "10:30"%string "00:30:00"%string
           example_entries (init empty_db)
           _ (Text "Trip added successfully!")).
  vm_compute. reflexivity.
Defined.

(** The zero policy of section 4.2 on a trip's derived keys. *)
Lemma derive_zero_policy (fe pp : float) (trip : Trip.t) :
  (PrimFloat.eqb (Trip.fare trip) 0 = true ->
   Spec.discount_rate (derive fe pp trip) = 0%float /\
   Spec.service_fee_percent (derive fe pp trip) = 0%float /\
   Spec.taxes_percent (derive fe pp trip) = 0%float) /\
  (PrimFloat.eqb (Trip.distance_km trip) 0 = true ->
   Spec.earnings_per_km (derive fe pp trip) = 0%float /\
   Spec.fuel_used (derive fe pp trip) = 0%float).
Proof.
  unfold derive, Spec.deriveTripMetrics, Spec.is_zero. cbn.
  split; intros ->; auto.
Qed.

(** A free ride of ten kilometres, entered while the fuel efficiency
    entry holds 0: the fare is zero, and the derivation ends in a division
    by zero, at [distance_km / fuel_efficiency]; [save_trip] shows the
    error and adds nothing. *)
Lemma C8_counterexample :
  Trip.fare free_ride = 0%float /\
  Trip.distance_km free_ride = 10%float /\
  UberWallet.fuel_efficiency no_efficiency = 0%float /\
  snd (Metrics.calculate (UberWallet.fuel_efficiency no_efficiency)
         (UberWallet.petrol_price no_efficiency) free_ride)
  = Some ZeroDivisionError /\
  read_entries Numeral.to_float free_ride_entries
    (Trip.blank None "2024-05-01" "10:00" "10:30" "00:30:00") = inl free_ride /\
  save_trip Numeral.to_float "2024-05-01" "10:00" "10:30" "00:30:00"
    free_ride_entries no_efficiency
  = (no_efficiency, Shown (showerror "Error" (AnErrorOccurred ZeroDivisionError))).
Proof. vm_compute. repeat split. Qed.

(** C8, as amended.  Where the fuel-efficiency division is safe, that is
    where the distance is zero or the efficiency is not, the derivation of
    a trip ends without an exception, and then a zero fare gives 0.0 for
    the discount rate and the two percentages, and a zero distance gives
    0.0 for the earnings per km and the fuel used; a zero distance makes
    that division safe whatever the efficiency; the derivation raises an
    exception exactly when the fuel efficiency is zero and the distance is
    not, and the exception is then the division by zero, so that no fare
    and no distance can make a division by themselves fail; and every trip
    that [save_trip] has accepted or that [recalculate_trip_data] has gone
    through holds these zeros. *)
Theorem C8_zero_fare_and_zero_distance_are_guarded :
  (forall fe pp trip,
      division_safe fe trip ->
      exists trip',
        Metrics.calculate fe pp trip = (trip', None) /\
        (PrimFloat.eqb (Trip.fare trip) 0 = true ->
         Trip.discount_rate trip' = 0%float /\
         Trip.service_fee_percent trip' = 0%float /\
         Trip.taxes_percent trip' = 0%float) /\
        (PrimFloat.eqb (Trip.distance_km trip) 0 = true ->
         Trip.earnings_per_km trip' = 0%float /\ Trip.fuel_used trip' = 0%float)) /\
  (forall fe trip,
      PrimFloat.eqb (Trip.distance_km trip) 0 = true -> division_safe fe trip) /\
  (forall fe pp trip e,
      (exists trip', Metrics.calculate fe pp trip = (trip', Some e)) <->
      e = ZeroDivisionError /\ PrimFloat.eqb fe 0 = true /\
      PrimFloat.eqb (Trip.distance_km trip) 0 = false) /\
  (forall py_float date start_time end_time duration entries w w' text,
      save_trip py_float date start_time end_time duration entries w
        = (w', Shown (showinfo "Success" text)) ->
      exists trip,
        UberWallet.trips w' = trip :: UberWallet.trips w /\
        (PrimFloat.eqb (Trip.fare trip) 0 = true ->
         Trip.discount_rate trip = 0%float /\
         Trip.service_fee_percent trip = 0%float /\
         Trip.taxes_percent trip = 0%float) /\
        (PrimFloat.eqb (Trip.distance_km trip) 0 = true ->
         Trip.earnings_per_km trip = 0%float /\ Trip.fuel_used trip = 0%float)) /\
  (forall w w',
      recalculate_trip_data w = (w', None) ->
      Forall (fun trip =>
                (PrimFloat.eqb (Trip.fare trip) 0 = true ->
                 Trip.discount_rate trip = 0%float /\
                 Trip.service_fee_percent trip = 0%float /\
                 Trip.taxes_percent trip = 0%float) /\
                (PrimFloat.eqb (Trip.distance_km trip) 0 = true ->
                 Trip.earnings_per_km trip = 0%float /\
                 Trip.fuel_used trip = 0%float))
        (UberWallet.trips w')).
Proof.
  split; [| split; [| split; [| split]]].
  - intros fe pp trip Hsafe. eexists. split; [apply calculate_derive, Hsafe |].
    destruct trip. exact (derive_zero_policy fe pp _).
  - intros fe trip Hzero Htruthy. unfold PyFloat.truthy in Htruthy.
    rewrite Hzero in Htruthy. discriminate.
  - intros fe pp trip e. split.
    + intros [trip' H]. apply calculate_raises in H as (-> & Hfe & Hd & _).
      unfold PyFloat.truthy in Hd. destruct (PrimFloat.eqb (Trip.distance_km trip) 0);
        [discriminate | auto].
    + intros (-> & Hfe & Hd). eexists. apply calculate_fault; [| exact Hfe].
      unfold PyFloat.truthy. rewrite Hd. reflexivity.
  - intros py_float date start_time end_time duration entries w w' text H.
    apply save_trip_success in H as (trip0 & trip & _ & Hcalc & _ & ->).
    apply calculate_ok_iff in Hcalc as [_ ->]. rewrite trips_of_save_data.
    eexists. split; [destruct w; reflexivity |].
    destruct trip0. exact (derive_zero_policy _ _ _).
  - intros w w' H. apply recalculate_trip_data_ok_iff in H as [_ ->].
    rewrite trips_of_save_data. destruct w; cbn.
    unfold rederived. apply List.Forall_forall. intros trip Hin.
    apply in_map_iff in Hin as (t & <- & _).
    destruct t. exact (derive_zero_policy _ _ _).
Qed.

Lemma C8_witness :
  exists trip',
    Metrics.calculate 25 180 zero_trip = (trip', None) /\
    (PrimFloat.eqb (Trip.fare zero_trip) 0 = true ->
     Trip.discount_rate trip' = 0%float /\
     Trip.service_fee_percent trip' = 0%float /\
     Trip.taxes_percent trip' = 0%float) /\
    (PrimFloat.eqb (Trip.distance_km zero_trip) 0 = true ->
     Trip.earnings_per_km trip' = 0%float /\ Trip.fuel_used trip' = 0%float).
Proof.
  apply (proj1 C8_zero_fare_and_zero_distance_are_guarded 25%float 180%float zero_trip).
  intros _. reflexivity.
Defined.

Lemma division_safe_with_derived (fe : float) (trip : Trip.t) (d : Spec.derived) :
  division_safe fe trip -> division_safe fe (with_derived trip d).
Proof. intros H. exact H. Qed.

Lemma division_safe_rederived (fe fe' pp : float) (trips : list Trip.t) :
  Forall (division_safe fe) trips -> Forall (division_safe fe) (rederived fe' pp trips).
Proof.
  intros H. unfold rederived. apply List.Forall_forall. intros t Hin.
  apply in_map_iff in Hin as (t0 & <- & Hin0).
  apply division_safe_with_derived. revert t0 Hin0. apply List.Forall_forall, H.
Qed.

(** C9. When [recalculate_trip_data] has gone through once, going through
    it again with the same two constants succeeds and leaves the list of
    trips, hence every derived field, as the first run left it; a single
    trip that has been derived is a fixed point of the derivation; and
    with a non-zero efficiency constant both runs do go through. *)
Theorem C9_recalculation_is_idempotent :
  (forall w w1,
      recalculate_trip_data w = (w1, None) ->
      exists w2,
        recalculate_trip_data w1 = (w2, None) /\
        UberWallet.trips w2 = UberWallet.trips w1 /\
        UberWallet.DEFAULT_FUEL_EFFICIENCY w1 = UberWallet.DEFAULT_FUEL_EFFICIENCY w /\
        UberWallet.DEFAULT_PETROL_PRICE w1 = UberWallet.DEFAULT_PETROL_PRICE w) /\
  (forall fe pp trip trip1,
      Metrics.calculate fe pp trip = (trip1, None) ->
      Metrics.calculate fe pp trip1 = (trip1, None)) /\
  (forall w,
      PrimFloat.eqb (UberWallet.DEFAULT_FUEL_EFFICIENCY w) 0 = false ->
      exists w1 w2,
        recalculate_trip_data w = (w1, None) /\
        recalculate_trip_data w1 = (w2, None) /\
        UberWallet.trips w2 = UberWallet.trips w1).
Proof.
  assert (Hfirst : forall w w1,
      recalculate_trip_data w = (w1, None) ->
      exists w2,
        recalculate_trip_data w1 = (w2, None) /\
        UberWallet.trips w2 = UberWallet.trips w1 /\
        UberWallet.DEFAULT_FUEL_EFFICIENCY w1 = UberWallet.DEFAULT_FUEL_EFFICIENCY w /\
        UberWallet.DEFAULT_PETROL_PRICE w1 = UberWallet.DEFAULT_PETROL_PRICE w).
  { intros w w1 H. apply recalculate_trip_data_ok_iff in H as [Hall ->].
    destruct (save_data_memory
                (UberWallet.set_trips
                   (rederived (UberWallet.DEFAULT_FUEL_EFFICIENCY w)
                      (UberWallet.DEFAULT_PETROL_PRICE w) (UberWallet.trips w)) w))
      as [d ->].
    eexists. split; [| split; [| split]].
    - apply recalculate_trip_data_ok_iff. split; [| reflexivity].
      destruct w; cbn in *. apply division_safe_rederived, Hall.
    - rewrite trips_of_save_data. destruct w; cbn. apply rederived_idempotent.
    - destruct w; reflexivity.
    - destruct w; reflexivity. }
  split; [exact Hfirst | split].
  - intros fe pp trip trip1 H. apply calculate_ok_iff in H as [Hsafe ->].
    apply calculate_ok_iff. split; [exact Hsafe |].
    rewrite derive_with_derived, with_derived_twice. reflexivity.
  - intros w Hfe.
    assert (H1 : exists w1, recalculate_trip_data w = (w1, None)).
    { eexists. apply recalculate_trip_data_ok_iff. split; [| reflexivity].
      apply List.Forall_forall. intros trip _. apply division_safe_of_nonzero, Hfe. }
    destruct H1 as [w1 H1]. destruct (Hfirst w w1 H1) as (w2 & H2 & Heq & _).
    exists w1, w2. auto.
Qed.

Lemma C9_witness :
  exists w2,
    recalculate_trip_data (fst (recalculate_trip_data example_wallet)) = (w2, None) /\
    UberWallet.trips w2 = UberWallet.trips (fst (recalculate_trip_data example_wallet)) /\
    UberWallet.DEFAULT_FUEL_EFFICIENCY (fst (recalculate_trip_data example_wallet))
      = UberWallet.DEFAULT_FUEL_EFFICIENCY example_wallet /\
    UberWallet.DEFAULT_PETROL_PRICE (fst (recalculate_trip_data example_wallet))
      = UberWallet.DEFAULT_PETROL_PRICE example_wallet.
Proof.
  apply (proj1 C9_recalculation_is_idempotent example_wallet
           (fst (recalculate_trip_data example_wallet))).
  vm_compute. reflexivity.
Defined.

(** ** The duplicate rule *)

Lemma same_key_matches (row trip : Trip.t) :
  (String.eqb (Trip.date row) (Trip.date trip) &&
   String.eqb (Trip.time row) (Trip.time trip) &&
   PrimFloat.eqb (Trip.distance_km row) (Trip.distance_km trip) &&
   PrimFloat.eqb (Trip.fare row) (Trip.fare trip)) = true <->
  Spec.same_key row trip.
Proof.
  unfold Spec.same_key. rewrite !andb_true_iff, !String.eqb_eq. tauto.
Qed.

Lemma is_duplicate_trip_iff (w : UberWallet.t) (trip : Trip.t) :
  is_duplicate_trip w trip = true <->
  exists row, In row (Db.trips (UberWallet.db w)) /\ Spec.same_key row trip.
Proof.
  unfold is_duplicate_trip, Db.count_matching.
  set (matches := fun r : Trip.t => _).
  split.
  - intros H. destruct (List.filter matches (Db.trips (UberWallet.db w)))
      as [| row rest] eqn:Hf; [discriminate |].
    assert (Hin : In row (List.filter matches (Db.trips (UberWallet.db w))))
      by (rewrite Hf; left; reflexivity).
    apply filter_In in Hin as [Hin Hm]. exists row. split; [exact Hin |].
    apply same_key_matches, Hm.
  - intros (row & Hin & Hk).
    assert (Hin' : In row (List.filter matches (Db.trips (UberWallet.db w)))).
    { apply filter_In. split; [exact Hin |]. apply same_key_matches, Hk. }
    destruct (List.filter matches (Db.trips (UberWallet.db w)));
      [destruct Hin' | reflexivity].
Qed.

(** Equality with a number and with what a [REAL] column gives back
    for it are the same test. *)
Lemma eqb_real (x y : float) : PrimFloat.eqb (Db.real x) y = PrimFloat.eqb x y.
Proof.
  unfold Db.real. destruct (PrimFloat.eqb x 0) eqn:Hx; [| reflexivity].
  revert Hx. rewrite !FloatAxioms.eqb_spec. change (Prim2SF 0) with (S754_zero false).
  destruct (Prim2SF x) as [s | s | | s m e]; cbn;
    try discriminate; try (destruct s; discriminate).
  intros _. destruct (Prim2SF y) as [s' | s' | | s' m' e']; destruct s; reflexivity.
Qed.

Lemma same_key_stored (i : option Z) (r trip : Trip.t) :
  Spec.same_key (Db.set_trip_id i (Db.stored_trip r)) trip <-> Spec.same_key r trip.
Proof.
  unfold Spec.same_key. destruct r; cbn. rewrite !eqb_real. reflexivity.
Qed.

Lemma insert_all_trips_keys (seq : Z) (records : list Trip.t) (trip : Trip.t) :
  (exists row, In row (fst (Db.insert_all Db.set_trip_id seq
                              (map Db.stored_trip records))) /\
               Spec.same_key row trip) <->
  (exists t, In t records /\ Spec.same_key t trip).
Proof.
  revert seq. induction records as [| r rest IH]; intros seq; cbn [List.map Db.insert_all].
  - cbn. split; intros (x & [] & _).
  - destruct (Db.insert_all Db.set_trip_id (seq + 1) (map Db.stored_trip rest))
      as [rows seq'] eqn:Hins.
    specialize (IH (seq + 1)). rewrite Hins in IH. cbn [fst] in *.
    split.
    + intros (row & [<- | Hin] & Hk).
      * exists r. split; [left; reflexivity |]. apply same_key_stored in Hk. exact Hk.
      * destruct (proj1 IH (ex_intro _ row (conj Hin Hk))) as (t & Ht & Hkt).
        exists t. split; [right; exact Ht | exact Hkt].
    + intros (t & [<- | Hin] & Hk).
      * eexists. split; [left; reflexivity |]. apply same_key_stored. exact Hk.
      * destruct (proj2 IH (ex_intro _ t (conj Hin Hk))) as (row & Hr & Hkr).
        exists row. split; [right; exact Hr | exact Hkr].
Qed.

Lemma save_trip_rejection_keeps_state (py_float : string -> option float)
    (date start_time end_time duration : string) (entries : TripEntries.t)
    (w w' : UberWallet.t) (title : string) (m : message) :
  save_trip py_float date start_time end_time duration entries w
    = (w', Shown (showerror title m)) ->
  w' = w.
Proof.
  unfold save_trip.
  destruct (read_entries py_float entries _) as [trip0 | n].
  - destruct (Metrics.calculate _ _ trip0) as [trip [e |]].
    + intros H. injection H as <-. reflexivity.
    + destruct (is_duplicate_trip w trip).
      * intros H. injection H as <-. reflexivity.
      * discriminate.
  - intros H. injection H as <-. reflexivity.
Qed.

(** For entries that pass validation and derivation, [save_trip]
    rejects the new trip as a duplicate exactly when a row of the trips
    table has the same date, start time, distance and fare; when no row
    agrees on all four the trip is created at the head of the list; a
    rejected creation returns the wallet as it was.  The rows are the
    trips of the list after a save that was committed; a save that was not
    committed leaves the rows, hence the outcome of the check, as they
    were. *)
Theorem duplicate_rule_reads_the_table (py_float : string -> option float)
    (date start_time end_time duration : string) (entries : TripEntries.t)
    (w : UberWallet.t) (trip0 trip : Trip.t) :
  read_entries py_float entries (Trip.blank None date start_time end_time duration)
    = inl trip0 ->
  Metrics.calculate (UberWallet.fuel_efficiency w) (UberWallet.petrol_price w) trip0
    = (trip, None) ->
  (Trip.date trip = date /\ Trip.time trip = start_time) /\
  (save_trip py_float date start_time end_time duration entries w
     = (w, Shown (showerror "Error" (Text "Duplicate trip detected - not saved")))
   <-> exists row, In row (Db.trips (UberWallet.db w)) /\ Spec.same_key row trip) /\
  ((forall row, In row (Db.trips (UberWallet.db w)) -> ~ Spec.same_key row trip) ->
   exists w',
     save_trip py_float date start_time end_time duration entries w
       = (w', Shown (showinfo "Success" (Text "Trip added successfully!"))) /\
     UberWallet.trips w' = trip :: UberWallet.trips w) /\
  (forall w' title m,
      save_trip py_float date start_time end_time duration entries w
        = (w', Shown (showerror title m)) ->
      UberWallet.trips w' = UberWallet.trips w /\
      UberWallet.balance w' = UberWallet.balance w /\
      UberWallet.current_fuel w' = UberWallet.current_fuel w) /\
  (committed w ->
   (is_duplicate_trip (fst (save_data w)) trip = true
    <-> exists t, In t (UberWallet.trips w) /\ Spec.same_key t trip)) /\
  (~ committed w ->
   is_duplicate_trip (fst (save_data w)) trip = is_duplicate_trip w trip).
Proof.
  intros Hread Hcalc.
  split; [| split; [| split; [| split; [| split]]]].
  - apply calculate_ok_iff in Hcalc as [_ ->].
    apply read_entries_inputs in Hread as (_ & Hd & Ht & _).
    destruct trip0; cbn in *. auto.
  - unfold save_trip. rewrite Hread, Hcalc.
    destruct (is_duplicate_trip w trip) eqn:Hdup.
    + split; [intros _; apply is_duplicate_trip_iff, Hdup | reflexivity].
    + split; [discriminate |]. intros H. apply is_duplicate_trip_iff in H.
      rewrite H in Hdup. discriminate.
  - intros Hnone. unfold save_trip. rewrite Hread, Hcalc.
    destruct (is_duplicate_trip w trip) eqn:Hdup.
    + apply is_duplicate_trip_iff in Hdup as (row & Hin & Hk).
      destruct (Hnone row Hin Hk).
    + eexists. split; [reflexivity |]. rewrite trips_of_save_data.
      destruct w; reflexivity.
  - intros w' title m H. apply save_trip_rejection_keeps_state in H as ->. auto.
  - intros Hcom. rewrite is_duplicate_trip_iff, (save_data_committed w Hcom).
    destruct w as [b ts ls cf fe pp dfe dpp d]; cbn.
    apply insert_all_trips_keys.
  - intros Hcom. destruct (save_data_not_committed w Hcom) as [e ->]. reflexivity.
Qed.

Lemma duplicate_rule_reads_the_table_witness :
  save_trip Numeral.to_float "2024-05-01" "10:00" "10:30" "00:30:00" example_entries
    example_wallet
    = (example_wallet,
       Shown (showerror "Error" (Text "Duplicate trip detected - not saved")))
  <-> exists row,
        In row (Db.trips (UberWallet.db example_wallet)) /\
        Spec.same_key row
          (example_trip None "2024-05-01" "10:00" "10:30" "00:30:00"
             (Spec.mkDerived 870 50 200 20 87 0.4 72 10 5)).
Proof.
  refine (proj1 (proj2
            (duplicate_rule_reads_the_table Numeral.to_float "2024-05-01" "10:00"
               "10:30" "00:30:00" example_entries example_wallet
               (example_trip None "2024-05-01" "10:00" "10:30" "00:30:00"
                  (Spec.mkDerived 0 0 0 0 0 0 0 0 0))
               (example_trip None "2024-05-01" "10:00" "10:30" "00:30:00"
                  (Spec.mkDerived 870 50 200 20 87 0.4 72 10 5)) _ _)));
    vm_compute; reflexivity.
Defined.

(** C2. On a database with empty tables, ten litres of fuel are recorded
    and the trip of the worked example is entered twice.  With a fuel log
    in the list the save shows "Could not save data: 6 values for 7
    columns" and commits nothing, so the trips table stays empty; the
    duplicate check reads that table, finds no row, and the second entry is
    added like the first: the list holds the same trip twice. *)
Theorem C2_identical_trip_is_accepted_twice :
  snd (save_trip Numeral.to_float "2024-05-01" "10:00" "10:30" "00:30:00"
         example_entries refuelled)
  = Shown (showinfo "Success" (Text "Trip added successfully!")) /\
  snd (save_trip Numeral.to_float "2024-05-01" "10:00" "10:30" "00:30:00"
         example_entries entered_once)
  = Shown (showinfo "Success" (Text "Trip added successfully!")) /\
  UberWallet.trips entered_once
  = [example_trip None "2024-05-01" "10:00" "10:30" "00:30:00"
       (Spec.mkDerived 870 50 200 20 87 0.4 72 10 5)] /\
  UberWallet.trips entered_twice
  = [example_trip None "2024-05-01" "10:00" "10:30" "00:30:00"
       (Spec.mkDerived 870 50 200 20 87 0.4 72 10 5);
     example_trip None "2024-05-01" "10:00" "10:30" "00:30:00"
       (Spec.mkDerived 870 50 200 20 87 0.4 72 10 5)] /\
  Db.trips (UberWallet.db entered_once) = [] /\
  Db.trips (UberWallet.db entered_twice) = [] /\
  snd (save_data entered_once)
  = Some (showerror "Database Error"
            (Text "Could not save data: 6 values for 7 columns")).
Proof. vm_compute. repeat split. Qed.

(** ** The two ledgers *)

Lemma float_neq (x y c : float) :
  PrimFloat.eqb x c = true -> PrimFloat.eqb y c = false -> x <> y.
Proof. intros Hx Hy ->. rewrite Hx in Hy. discriminate. Qed.

(** The same three trips and the same fuel log give one fuel level when
    the trips are listed one way and another when they are listed the
    other way round: with left-to-right summation the reduction depends
    on the order of the records. *)
Lemma fuel_level_depends_on_order :
  Permutation three_trips (rev three_trips) /\
  UberWallet.current_fuel
    (recalculate_balance_and_fuel (wallet_of three_trips [small_refill]))
    = 0x1.cccccccccccccp-1%float /\
  UberWallet.current_fuel
    (recalculate_balance_and_fuel (wallet_of (rev three_trips) [small_refill]))
    = 0x1.ccccccccccccdp-1%float /\
  Spec.currentFuelLevel three_trips [small_refill]
    <> Spec.currentFuelLevel (rev three_trips) [small_refill].
Proof.
  split; [apply Permutation_rev |].
  split; [vm_compute; reflexivity |].
  split; [vm_compute; reflexivity |].
  apply (float_neq _ _ 0x1.cccccccccccccp-1); vm_compute; reflexivity.
Qed.

Lemma recalculate_current_fuel_spec (w : UberWallet.t) :
  fuel_recomputed (recalculate_current_fuel w) /\
  UberWallet.trips (recalculate_current_fuel w) = UberWallet.trips w /\
  UberWallet.fuel_logs (recalculate_current_fuel w) = UberWallet.fuel_logs w /\
  UberWallet.balance (recalculate_current_fuel w) = UberWallet.balance w.
Proof. destruct w; repeat split. Qed.

Lemma recalculate_balance_and_fuel_spec (w : UberWallet.t) :
  ledgers_recomputed (recalculate_balance_and_fuel w) /\
  UberWallet.trips (recalculate_balance_and_fuel w) = UberWallet.trips w /\
  UberWallet.fuel_logs (recalculate_balance_and_fuel w) = UberWallet.fuel_logs w.
Proof. destruct w; repeat split. Qed.

Lemma ledgers_ignore_db (w : UberWallet.t) (d : Db.t) :
  ledgers_recomputed w -> ledgers_recomputed (UberWallet.set_db d w).
Proof. destruct w; exact (fun H => H). Qed.

Lemma fuel_ignores_db (w : UberWallet.t) (d : Db.t) :
  fuel_recomputed w -> fuel_recomputed (UberWallet.set_db d w).
Proof. destruct w; exact (fun H => H). Qed.

(** What a successful [delete_selected_trip] did. *)
Lemma delete_trip_success (selection : option nat) (confirmed : bool)
    (w w' : UberWallet.t) (text : message) :
  delete_selected_trip selection confirmed w = (w', Shown (showinfo "Success" text)) ->
  exists i trip_to_delete trip_id,
    selection = Some i /\ UberWallet.trips w !! i = Some trip_to_delete /\
    confirmed = true /\ Trip.id trip_to_delete = Some trip_id /\
    w' = recalculate_balance_and_fuel
           (UberWallet.set_db (Db.delete_trip trip_id (UberWallet.db w))
              (UberWallet.set_trips (delete i (UberWallet.trips w)) w)).
Proof.
  unfold delete_selected_trip.
  destruct selection as [i |]; [| discriminate].
  destruct (UberWallet.trips w !! i) as [trip |] eqn:Hl; [| discriminate].
  destruct confirmed; [| discriminate]. cbn [negb].
  destruct (Trip.id trip) as [trip_id |] eqn:Hid; [| discriminate].
  intros H. injection H as <- _. exists i, trip, trip_id. destruct w; auto 10.
Qed.

(** What a successful [add_fuel] did. *)
Lemma add_fuel_success (result : option FuelLog.t) (w w' : UberWallet.t)
    (text : message) :
  add_fuel result w = (w', Shown (showinfo "Success" text)) ->
  exists log,
    result = Some log /\ PrimFloat.ltb MAX_TANK_CAPACITY (FuelLog.liters log) = false /\
    w' = fst (save_data
                (recalculate_current_fuel
                   (UberWallet.set_fuel_logs (log :: UberWallet.fuel_logs w) w))).
Proof.
  unfold add_fuel. destruct result as [log |]; [| discriminate].
  destruct (PrimFloat.ltb MAX_TANK_CAPACITY (FuelLog.liters log)) eqn:Hcap;
    [discriminate |].
  intros H. injection H as <- _. exists log. auto.
Qed.

(** What a successful [edit_selected_fuel_log] did. *)
Lemma edit_fuel_log_success (selection : option nat)
    (dialog : FuelLog.t -> option FuelLog.t) (w w' : UberWallet.t) (text : message) :
  edit_selected_fuel_log selection dialog w = (w', Shown (showinfo "Success" text)) ->
  exists i log_to_edit result,
    selection = Some i /\ UberWallet.fuel_logs w !! i = Some log_to_edit /\
    dialog log_to_edit = Some result /\
    w' = UberWallet.set_db (Db.update_fuel_log result (UberWallet.db w))
           (recalculate_current_fuel
              (UberWallet.set_fuel_logs (<[i := result]> (UberWallet.fuel_logs w)) w)).
Proof.
  unfold edit_selected_fuel_log.
  destruct selection as [i |]; [| discriminate].
  destruct (UberWallet.fuel_logs w !! i) as [log |] eqn:Hl; [| discriminate].
  destruct (dialog log) as [result |] eqn:Hd; [| discriminate].
  intros H. injection H as <- _. exists i, log, result. destruct w; auto 10.
Qed.

(** What a successful [delete_selected_fuel_log] did. *)
Lemma delete_fuel_log_success (selection : option nat) (confirmed : bool)
    (w w' : UberWallet.t) (text : message) :
  delete_selected_fuel_log selection confirmed w
    = (w', Shown (showinfo "Success" text)) ->
  exists i log_to_delete,
    selection = Some i /\ UberWallet.fuel_logs w !! i = Some log_to_delete /\
    confirmed = true /\
    w' = recalculate_current_fuel
           (UberWallet.set_db
              (Db.delete_fuel_log (FuelLog.id log_to_delete) (UberWallet.db w))
              (UberWallet.set_fuel_logs (delete i (UberWallet.fuel_logs w)) w)).
Proof.
  unfold delete_selected_fuel_log.
  destruct selection as [i |]; [| discriminate].
  destruct (UberWallet.fuel_logs w !! i) as [log |] eqn:Hl; [| discriminate].
  destruct confirmed; [| discriminate]. cbn [negb].
  intros H. injection H as <- _. exists i, log. destruct w; auto 10.
Qed.

(** What each handler does to the two ledgers.  A trip edit and the
    deletion of a trip that carries a database id leave the balance equal
    to the sum of [trip_balance] over the trips and the fuel level equal to
    the litres of the fuel logs minus the [fuel_used] of the trips; adding,
    editing or deleting a fuel log leaves the fuel level so, and the trips
    and the balance as they were; loading does both; a trip add puts the
    new trip first and updates the two ledgers by the new trip's own
    [trip_balance] and [fuel_used].  Each sum is taken in list order. *)
Theorem ledgers_after_each_mutation :
  (forall py_float date start_time end_time duration entries w w' text,
      save_trip py_float date start_time end_time duration entries w
        = (w', Shown (showinfo "Success" text)) ->
      exists trip,
        UberWallet.trips w' = trip :: UberWallet.trips w /\
        UberWallet.fuel_logs w' = UberWallet.fuel_logs w /\
        UberWallet.balance w'
          = (UberWallet.balance w + Trip.trip_balance trip)%float /\
        UberWallet.current_fuel w'
          = (UberWallet.current_fuel w - Trip.fuel_used trip)%float) /\
  (forall py_float selection time_info entries w w' text,
      edit_selected_trip py_float selection time_info entries w
        = (w', Shown (showinfo "Success" text)) ->
      ledgers_recomputed w') /\
  (forall selection confirmed w w' text,
      delete_selected_trip selection confirmed w
        = (w', Shown (showinfo "Success" text)) ->
      ledgers_recomputed w') /\
  (forall result w w' text,
      add_fuel result w = (w', Shown (showinfo "Success" text)) ->
      fuel_recomputed w' /\ UberWallet.trips w' = UberWallet.trips w /\
      UberWallet.balance w' = UberWallet.balance w) /\
  (forall selection dialog w w' text,
      edit_selected_fuel_log selection dialog w
        = (w', Shown (showinfo "Success" text)) ->
      fuel_recomputed w' /\ UberWallet.trips w' = UberWallet.trips w /\
      UberWallet.balance w' = UberWallet.balance w) /\
  (forall selection confirmed w w' text,
      delete_selected_fuel_log selection confirmed w
        = (w', Shown (showinfo "Success" text)) ->
      fuel_recomputed w' /\ UberWallet.trips w' = UberWallet.trips w /\
      UberWallet.balance w' = UberWallet.balance w) /\
  (forall trip_offset trip_limit fuel_offset fuel_limit w,
      ledgers_recomputed (load_data trip_offset trip_limit fuel_offset fuel_limit w)).
Proof.
  split; [| split; [| split; [| split; [| split; [| split]]]]].
  - intros py_float date start_time end_time duration entries w w' text H.
    apply save_trip_success in H as (trip0 & trip & _ & _ & _ & ->).
    exists trip. destruct (save_data_keeps (with_new_trip trip w)) as (-> & -> & -> & ->).
    destruct w; repeat split.
  - intros py_float selection time_info entries w w' text H.
    apply edit_trip_success in H
      as (i & old & st & du & et & trip_id & trip0 & trip & _ & _ & _ & _ & _ & _ & ->).
    apply ledgers_ignore_db, recalculate_balance_and_fuel_spec.
  - intros selection confirmed w w' text H.
    apply delete_trip_success in H as (i & trip & trip_id & _ & _ & _ & _ & ->).
    apply recalculate_balance_and_fuel_spec.
  - intros result w w' text H.
    apply add_fuel_success in H as (log & _ & _ & ->).
    unfold fuel_recomputed.
    destruct (save_data_keeps
                (recalculate_current_fuel
                   (UberWallet.set_fuel_logs (log :: UberWallet.fuel_logs w) w)))
      as (-> & -> & -> & ->).
    destruct w; repeat split.
  - intros selection dialog w w' text H.
    apply edit_fuel_log_success in H as (i & log & result & _ & _ & _ & ->).
    destruct w; repeat split.
  - intros selection confirmed w w' text H.
    apply delete_fuel_log_success in H as (i & log & _ & _ & _ & ->).
    destruct w; repeat split.
  - intros trip_offset trip_limit fuel_offset fuel_limit w. destruct w; split; reflexivity.
Qed.

Lemma ledgers_after_each_mutation_witness :
  exists trip,
    UberWallet.trips example_wallet = trip :: UberWallet.trips (init empty_db) /\
    UberWallet.fuel_logs example_wallet = UberWallet.fuel_logs (init empty_db) /\
    UberWallet.balance example_wallet
      = (UberWallet.balance (init empty_db) + Trip.trip_balance trip)%float /\
    UberWallet.current_fuel example_wallet
      = (UberWallet.current_fuel (init empty_db) - Trip.fuel_used trip)%float.
Proof.
  apply (proj1 ledgers_after_each_mutation Numeral.to_float
           "2024-05-01"%string "10:00"%string "10:30"%string "00:30:00"%string
           example_entries (init empty_db) example_wallet
           (Text "Trip added successfully!")).
  vm_compute. reflexivity.
Defined.

(** C3. A trip add does not recompute the ledgers from the lists, as the
    other handlers do: it adds to the balance and takes from the fuel level
    what they hold.  Three runs on a database with empty tables show it.
    A trip with a balance of 50 is added and deleted, which leaves the
    list empty and the balance at 50, and a second such trip is added: the
    wallet shows a balance of 100 and the only trip of the list has a
    balance of 50.  Ten litres are bought, a trip of 25 km is added, the
    fuel efficiency is changed from 25 to 50 and saved, a trip of 50 km is
    added: the trips have used 0.5 and 1.0 litres, the lists give a fuel
    level of 8.5 and the wallet shows 8.0.  Three trips with fares of
    100.1, 200.2 and 300.3 are added: the wallet shows a balance of
    600.5999999999999 and the sum of the three balances is 600.6, with the
    summation of either generation of the interpreter. *)
Theorem C3_trip_add_does_not_recompute :
  (map Trip.trip_balance (UberWallet.trips session_with_a_deletion) = [50%float] /\
   UberWallet.balance session_with_a_deletion = 100%float /\
   Spec.currentBalance (UberWallet.trips session_with_a_deletion) = 50%float) /\
  (map Trip.fuel_used (UberWallet.trips session_with_settings_change)
     = [1; 0.5]%float /\
   map FuelLog.liters (UberWallet.fuel_logs session_with_settings_change)
     = [10%float] /\
   UberWallet.current_fuel session_with_settings_change = 8%float /\
   Spec.currentFuelLevel (UberWallet.trips session_with_settings_change)
     (UberWallet.fuel_logs session_with_settings_change) = 8.5%float) /\
  (map Trip.trip_balance (UberWallet.trips session_of_three_adds)
     = [300.3; 200.2; 100.1]%float /\
   UberWallet.balance session_of_three_adds = 0x1.2c4ccccccccccp+9%float /\
   Spec.currentBalance (UberWallet.trips session_of_three_adds)
     = 0x1.2c4cccccccccdp+9%float /\
   PyFloat.sum_compensated
     (map Trip.trip_balance (UberWallet.trips session_of_three_adds))
     = 0x1.2c4cccccccccdp+9%float).
Proof. vm_compute. repeat split. Qed.

(** A trip added in this run has no ['id'] key: deleting it removes it
    from the list and then stops on the missing key, before the ledgers
    are recomputed. *)
Lemma deleting_a_trip_without_id :
  snd (delete_selected_trip (Some 0%nat) true example_wallet)
    = Uncaught (KeyError "id") /\
  UberWallet.trips (fst (delete_selected_trip (Some 0%nat) true example_wallet)) = [] /\
  UberWallet.balance (fst (delete_selected_trip (Some 0%nat) true example_wallet))
    = 50%float.
Proof. vm_compute. repeat split. Qed.

(** ** Dates written by the program read back *)

Lemma in_Z_range (first count z : Z) :
  first <= z < first + count -> In z (Z_range first count).
Proof.
  intros Hz. unfold Z_range. apply in_map_iff.
  exists (Z.to_nat (z - first)). split; [lia |]. apply in_seq. lia.
Qed.

Lemma all_years_print :
  forallb year_prints (Z_range 1000 9000) = true.
Proof. vm_compute. reflexivity. Qed.

Lemma all_months_and_days_read :
  forallb (fun m => forallb (after_year_reads m) (Z_range 1 31)) (Z_range 1 12) = true.
Proof. vm_compute. reflexivity. Qed.

Lemma list_ascii_of_append (s1 s2 : string) :
  list_ascii_of_string (s1 ++ s2)%string
    = list_ascii_of_string s1 ++ list_ascii_of_string s2.
Proof. induction s1 as [| c s1 IH]; cbn; [reflexivity | rewrite IH; reflexivity]. Qed.

(** A date that [strftime] wrote, for a year of four digits, is what
    [strptime] reads. *)
Lemma strptime_strftime (d : Date.date) :
  Date.valid d = true -> 1000 <= Date.year d ->
  Date.strptime (Date.strftime d) = Ok d.
Proof.
  intros Hvalid Hyear. destruct d as [y m dd]. cbn [Date.year] in Hyear.
  pose proof Hvalid as Hv. unfold Date.valid in Hv. cbn [Date.year Date.month Date.day] in Hv.
  assert (Hdim : Date.days_in_month y m <= 31).
  { unfold Date.days_in_month.
    repeat match goal with |- context [if ?b then _ else _] => destruct b end; lia. }
  apply andb_prop in Hv as [Hv Hd2]. apply andb_prop in Hv as [Hv Hd1].
  apply andb_prop in Hv as [Hv Hm2]. apply andb_prop in Hv as [Hv Hm1].
  apply andb_prop in Hv as [Hy1 Hy2].
  apply Z.leb_le in Hy1, Hy2, Hm1, Hm2, Hd1, Hd2.
  assert (Hy : year_prints y = true).
  { pose proof all_years_print as H. rewrite forallb_forall in H.
    apply H, in_Z_range. lia. }
  assert (Hmd : after_year_reads m dd = true).
  { pose proof all_months_and_days_read as H. rewrite forallb_forall in H.
    specialize (H m (in_Z_range 1 12 m ltac:(lia))).
    rewrite forallb_forall in H. apply H, in_Z_range. lia. }
  unfold Date.strptime.
  change (Date.strftime (Date.mkDate y m dd))
    with (Text.zfill 4 (Text.of_Z y) ++ after_year m dd)%string.
  rewrite list_ascii_of_append.
  unfold year_prints in Hy. unfold after_year_reads in Hmd.
  destruct (list_ascii_of_string (Text.zfill 4 (Text.of_Z y)))
    as [| c1 [| c2 [| c3 [| c4 [| c5 l]]]]]; try discriminate.
  destruct (list_ascii_of_string (after_year m dd)) as [| h rest]; [discriminate |].
  cbn [app].
  destruct (Date.digit c1) as [a |]; [| discriminate].
  destruct (Date.digit c2) as [b |]; [| discriminate].
  destruct (Date.digit c3) as [c |]; [| discriminate].
  destruct (Date.digit c4) as [e |]; [| discriminate].
  apply Z.eqb_eq in Hy.
  apply andb_prop in Hmd as [Hh Hmd].
  destruct (Date.upto_hyphen rest) as [[mtok dtok] |]; [| discriminate].
  rewrite Hh. cbn [negb].
  destruct (Date.month_token mtok) as [m' |]; [| discriminate].
  destruct (Date.day_token dtok) as [dd' |]; [| discriminate].
  apply andb_prop in Hmd as [Hm Hd]. apply Z.eqb_eq in Hm, Hd. subst m' dd'.
  cbv zeta. rewrite Hy, Hvalid. reflexivity.
Qed.

(** The trips whose date texts were written by [strftime] from calendar
    dates of four-digit years can all be read by the reports. *)
Lemma dates_parse_of_strftime (trips : list Trip.t) :
  Forall (fun trip =>
            exists d, Date.valid d = true /\ 1000 <= Date.year d /\
                      Trip.date trip = Date.strftime d) trips ->
  dates_parse trips.
Proof.
  unfold dates_parse. apply List.Forall_impl.
  intros trip (d & Hv & Hy & ->). exists d. apply strptime_strftime; assumption.
Qed.

(** ** Period reports *)

Lemma select_by_date_filter (p : Date.date -> bool) (trips : list Trip.t) :
  dates_parse trips ->
  Report.select_by_date p trips
    = Ok (List.filter
            (fun trip =>
               match Date.strptime (Trip.date trip) with
               | Ok d => p d
               | Raise _ => false
               end) trips).
Proof.
  induction 1 as [| trip rest [d Hd] _ IH]; [reflexivity |].
  cbn [Report.select_by_date List.filter]. rewrite Hd, IH. cbn [rbind]. reflexivity.
Qed.

Lemma finish_nonempty (title : string) (selected : list Trip.t) :
  selected <> [] ->
  Report.finish title selected = report_text title (Spec.aggregate_of selected).
Proof. destruct selected; [congruence | reflexivity]. Qed.

Lemma finish_empty (title : string) :
  Report.finish title [] = Report.no_trips_in_period.
Proof. reflexivity. Qed.

(** A request on a non-empty list, with its parameters given and the
    dates readable, filters the list and hands it to [Report.finish]. *)
Lemma report_for_finish (p : Spec.period) (trips : list Trip.t) :
  trips <> [] -> dates_readable p trips -> period_given p ->
  report_for p trips
    = Ok (Report.finish (report_title p) (List.filter (Spec.in_period p) trips)).
Proof.
  intros Hne Hdates Hgiven.
  destruct trips as [| t0 rest]; [congruence |].
  destruct p as [day | start_date end_date | month year];
    unfold report_for, Report.generate_report; cbn [String.eqb Ascii.eqb Bool.eqb].
  - reflexivity.
  - rewrite (select_by_date_filter _ _ Hdates). reflexivity.
  - destruct Hgiven as [Hm Hy].
    assert (Hmt : Report.truthy_int (Some month) = Some month)
      by (destruct month; [congruence | reflexivity | reflexivity]).
    assert (Hyt : Report.truthy_int (Some year) = Some year)
      by (destruct year; [congruence | reflexivity | reflexivity]).
    rewrite Hmt, Hyt. rewrite (select_by_date_filter _ _ Hdates). reflexivity.
Qed.

Lemma select_by_date_view (p : Date.date -> bool) (trips : list Trip.t) :
  Report.select_by_date p (map report_view trips)
    = match Report.select_by_date p trips with
      | Ok selected => Ok (map report_view selected)
      | Raise e => Raise e
      end.
Proof.
  induction trips as [| trip rest IH]; [reflexivity |].
  cbn [map Report.select_by_date]. cbn [report_view Trip.date].
  destruct (Date.strptime (Trip.date trip)) as [d | e]; [| reflexivity].
  cbn [rbind]. rewrite IH.
  destruct (Report.select_by_date p rest) as [selected | e]; [| reflexivity].
  cbn [rbind]. destruct (p d); reflexivity.
Qed.

Lemma filter_view (f : Trip.t -> bool) (trips : list Trip.t) :
  (forall trip, f (report_view trip) = f trip) ->
  List.filter f (map report_view trips) = map report_view (List.filter f trips).
Proof.
  intros Hf. induction trips as [| trip rest IH]; [reflexivity |].
  cbn [map List.filter]. rewrite Hf, IH. destruct (f trip); reflexivity.
Qed.

Lemma finish_view (title : string) (selected : list Trip.t) :
  Report.finish title (map report_view selected) = Report.finish title selected.
Proof.
  destruct selected as [| t0 rest]; [reflexivity |].
  unfold Report.finish. cbn [map].
  change (report_view t0 :: map report_view rest) with (map report_view (t0 :: rest)).
  unfold Report.render. rewrite !length_map, !map_map. reflexivity.
Qed.

Lemma generate_report_view (trips : list Trip.t) (report_type : string)
    (start_date end_date : option Date.date) (month year : option Z)
    (day : option Date.date) :
  Report.generate_report (map report_view trips) report_type start_date end_date
    month year day
  = Report.generate_report trips report_type start_date end_date month year day.
Proof.
  destruct trips as [| t0 rest]; [reflexivity |].
  unfold Report.generate_report. cbn [map].
  change (report_view t0 :: map report_view rest) with (map report_view (t0 :: rest)).
  set (trips := t0 :: rest).
  destruct (String.eqb report_type "daily").
  - destruct day as [day |]; [| reflexivity].
    rewrite filter_view by reflexivity. rewrite finish_view. reflexivity.
  - destruct (String.eqb report_type "weekly").
    + destruct start_date as [s |], end_date as [e |]; try reflexivity.
      rewrite select_by_date_view.
      destruct (Report.select_by_date _ trips); [| reflexivity].
      cbn [rbind]. rewrite finish_view. reflexivity.
    + destruct (String.eqb report_type "monthly"); [| reflexivity].
      destruct (Report.truthy_int month) as [m |], (Report.truthy_int year) as [y |];
        try reflexivity.
      rewrite select_by_date_view.
      destruct (Report.select_by_date _ trips); [| reflexivity].
      cbn [rbind]. rewrite finish_view. reflexivity.
Qed.

Lemma same_stored_fields_view (trips trips2 : list Trip.t) :
  Forall2 same_stored_fields trips trips2 ->
  map report_view trips = map report_view trips2.
Proof.
  induction 1 as [| a b l1 l2 (Hd & Hk & He & Hc) _ IH]; [reflexivity |].
  cbn [map]. rewrite IH. unfold report_view. rewrite Hd, Hk, He, Hc. reflexivity.
Qed.

(** C4. On a non-empty list of trips, a daily, weekly or monthly request
    that selects at least one trip returns the report of the selected
    trips: their number, and the sums of their stored distances, earnings
    and estimated fuel costs, with the net earnings the total earnings
    minus the total fuel cost; the trips selected are those whose date is
    the day asked for, lies in the inclusive range, or has the year and
    month asked for.  The report reads nothing else of a trip: two lists
    that agree on the dates and on these three stored fields give the same
    report, whatever their fares, fees or settings. *)
Theorem C4_report_aggregates_stored_fields (p : Spec.period) (trips : list Trip.t) :
  trips <> [] -> dates_readable p trips -> period_given p ->
  List.filter (Spec.in_period p) trips <> [] ->
  report_for p trips
    = Ok (report_text (report_title p)
            (Spec.aggregate_of (List.filter (Spec.in_period p) trips))) /\
  (forall trips2,
      Forall2 same_stored_fields trips trips2 ->
      report_for p trips2 = report_for p trips).
Proof.
  intros Hne Hdates Hgiven Hsel. split.
  - rewrite (report_for_finish p trips Hne Hdates Hgiven).
    rewrite (finish_nonempty _ _ Hsel). reflexivity.
  - intros trips2 H2. apply same_stored_fields_view in H2.
    destruct p; unfold report_for;
      rewrite <- (generate_report_view trips2), <- (generate_report_view trips), H2;
      reflexivity.
Qed.


Lemma example_wallet_trips :
  UberWallet.trips example_wallet
    = [example_trip None "2024-05-01" "10:00" "10:30" "00:30:00"
         (Spec.mkDerived 870 50 200 20 87 0.4 72 10 5)].
Proof. vm_compute. reflexivity. Qed.

Lemma C4_witness :
  report_for (Spec.Monthly 5 2024) (UberWallet.trips example_wallet)
    = Ok (report_text (report_title (Spec.Monthly 5 2024))
            (Spec.aggregate_of
               (List.filter (Spec.in_period (Spec.Monthly 5 2024))
                  (UberWallet.trips example_wallet)))) /\
  (forall trips2,
      Forall2 same_stored_fields (UberWallet.trips example_wallet) trips2 ->
      report_for (Spec.Monthly 5 2024) trips2
        = report_for (Spec.Monthly 5 2024) (UberWallet.trips example_wallet)).
Proof.
  apply (C4_report_aggregates_stored_fields (Spec.Monthly 5 2024)
           (UberWallet.trips example_wallet)).
  - rewrite example_wallet_trips. discriminate.
  - rewrite example_wallet_trips. constructor; [| constructor].
    exists (Date.mkDate 2024 5 1). vm_compute. reflexivity.
  - split; discriminate.
  - rewrite example_wallet_trips. vm_compute. discriminate.
Defined.

(** The monthly report of the wallet that holds the worked example's
    trip, as the text that the user sees. *)
Example monthly_report_of_the_example :
  report_for (Spec.Monthly 5 2024) (UberWallet.trips example_wallet)
  = Ok (Report.nl ++ "Monthly Report for 05/2024" ++ Report.nl ++
        "==========================" ++ Report.nl ++
        "Total Trips: 1" ++ Report.nl ++
        "Total Distance: 10.0 km" ++ Report.nl ++
        "Total Earnings: KES 870.00" ++ Report.nl ++
        "Estimated Total Fuel Cost: KES 72.00" ++ Report.nl ++
        "Net Earnings (Earnings - Estimated Fuel Cost): KES 798.00" ++ Report.nl)%string.
Proof. vm_compute. reflexivity. Qed.

Lemma report_text_starts_with_newline (title : string) (a : Spec.aggregate) :
  exists rest, report_text title a = String (ascii_of_nat 10) rest.
Proof. eexists. reflexivity. Qed.

(** C5. [generate_report] answers "No trip data available." on an empty
    list, whatever is asked; on a non-empty list it answers with a request
    for the missing parameters when a daily report has no day, a weekly
    report lacks a date, or a monthly report lacks its month or year (or
    has a zero there); and when the filter is given and matches no trip it
    answers "No trips found for the selected period.".  These answers are
    different texts, and none of them is the text of a report. *)
Theorem C5_report_outcomes_are_distinct :
  (forall report_type start_date end_date month year day,
      Report.generate_report [] report_type start_date end_date month year day
        = Ok Report.no_data) /\
  (forall trips start_date end_date month year,
      trips <> [] ->
      Report.generate_report trips "daily" start_date end_date month year None
        = Ok Report.no_day) /\
  (forall trips start_date end_date month year day,
      trips <> [] -> start_date = None \/ end_date = None ->
      Report.generate_report trips "weekly" start_date end_date month year day
        = Ok Report.no_week) /\
  (forall trips start_date end_date month year day,
      trips <> [] ->
      Report.truthy_int month = None \/ Report.truthy_int year = None ->
      Report.generate_report trips "monthly" start_date end_date month year day
        = Ok Report.no_month) /\
  (forall p trips,
      trips <> [] -> dates_readable p trips -> period_given p ->
      List.filter (Spec.in_period p) trips = [] ->
      report_for p trips = Ok Report.no_trips_in_period) /\
  (Report.no_data <> Report.no_trips_in_period /\
   Report.no_data <> Report.no_day /\ Report.no_data <> Report.no_week /\
   Report.no_data <> Report.no_month /\
   Report.no_trips_in_period <> Report.no_day /\
   Report.no_trips_in_period <> Report.no_week /\
   Report.no_trips_in_period <> Report.no_month) /\
  (forall title a,
      report_text title a <> Report.no_data /\
      report_text title a <> Report.no_trips_in_period /\
      report_text title a <> Report.no_day /\
      report_text title a <> Report.no_week /\
      report_text title a <> Report.no_month).
Proof.
  split; [| split; [| split; [| split; [| split; [| split]]]]].
  - reflexivity.
  - intros [| t0 rest] s e m y Hne; [congruence | reflexivity].
  - intros [| t0 rest] s e m y d Hne Hmiss; [congruence |].
    unfold Report.generate_report. cbn [String.eqb Ascii.eqb Bool.eqb].
    destruct Hmiss as [-> | ->]; [reflexivity |]. destruct s; reflexivity.
  - intros [| t0 rest] s e m y d Hne Hmiss; [congruence |].
    unfold Report.generate_report. cbn [String.eqb Ascii.eqb Bool.eqb].
    destruct Hmiss as [-> | ->]; [reflexivity |].
    destruct (Report.truthy_int m); reflexivity.
  - intros p trips Hne Hdates Hgiven Hsel.
    rewrite (report_for_finish p trips Hne Hdates Hgiven), Hsel. reflexivity.
  - repeat split; discriminate.
  - intros title a. destruct (report_text_starts_with_newline title a) as [rest ->].
    repeat split; discriminate.
Qed.

Lemma C5_witness :
  report_for (Spec.Monthly 6 2024) (UberWallet.trips example_wallet)
    = Ok Report.no_trips_in_period.
Proof.
  apply (proj1 (proj2 (proj2 (proj2 (proj2 C5_report_outcomes_are_distinct))))
           (Spec.Monthly 6 2024) (UberWallet.trips example_wallet)).
  - rewrite example_wallet_trips. discriminate.
  - rewrite example_wallet_trips. constructor; [| constructor].
    exists (Date.mkDate 2024 5 1). vm_compute. reflexivity.
  - split; discriminate.
  - rewrite example_wallet_trips. vm_compute. reflexivity.
Defined.

(** ** Fuel purchases *)

(** What [on_save] does once the entries have passed the checks that
    come before the division. *)
Lemma on_save_after_checks (py_float : string -> option float)
    (clock : string -> FuelDialog.time_check) (d : FuelDialog.t)
    (amount price : float) (refuel_time : string) :
  fuel_entries_read py_float clock d amount price refuel_time ->
  FuelDialog.on_save py_float clock d
    = if PrimFloat.eqb price 0
      then (None, Shown (showerror "Error" (AnErrorOccurred ZeroDivisionError)))
      else if PrimFloat.ltb MAX_TANK_CAPACITY (amount / price)
           then (None, Shown (showerror "Error"
                                (Text "Fuel added exceeds tank capacity.")))
           else (Some (fuel_log_of d amount price refuel_time), Quiet).
Proof.
  intros (Ha & Ha0 & Hp & Hp0 & Hs & Hl & Hc).
  unfold FuelDialog.on_save, validate_positive_float.
  rewrite Ha, Ha0, Hp, Hp0, Hs, Hl, Hc. cbn [negb].
  unfold PyFloat.truediv. destruct (PrimFloat.eqb price 0); [reflexivity |].
  destruct (PrimFloat.ltb MAX_TANK_CAPACITY (amount / price)); reflexivity.
Qed.

(** Whatever [on_save] leaves in [self.result] passed every check. *)
Lemma on_save_result (py_float : string -> option float)
    (clock : string -> FuelDialog.time_check) (d : FuelDialog.t)
    (log : FuelLog.t) (o : outcome) :
  FuelDialog.on_save py_float clock d = (Some log, o) ->
  exists amount price refuel_time,
    fuel_entries_read py_float clock d amount price refuel_time /\
    PrimFloat.eqb price 0 = false /\
    PrimFloat.ltb MAX_TANK_CAPACITY (amount / price) = false /\
    log = fuel_log_of d amount price refuel_time /\ o = Quiet.
Proof.
  unfold FuelDialog.on_save, validate_positive_float, FuelDialog.error_box.
  destruct (py_float (FuelDialog.amount_entry d)) as [amount |] eqn:Ha;
    [| discriminate].
  destruct (PrimFloat.ltb amount 0) eqn:Ha0; [discriminate |].
  destruct (py_float (FuelDialog.price_entry d)) as [price |] eqn:Hp;
    [| discriminate].
  destruct (PrimFloat.ltb price 0) eqn:Hp0; [discriminate |].
  destruct (Text.truthy (Text.strip (FuelDialog.station_entry d))) eqn:Hs;
    [| discriminate].
  destruct (Text.truthy (Text.strip (FuelDialog.location_entry d))) eqn:Hl;
    [| discriminate].
  cbn [negb].
  destruct (clock _) as [refuel_time | | |] eqn:Hc; try discriminate.
  unfold PyFloat.truediv. destruct (PrimFloat.eqb price 0) eqn:Hz; [discriminate |].
  destruct (PrimFloat.ltb MAX_TANK_CAPACITY (amount / price)) eqn:Hcap;
    [discriminate |].
  intros H. injection H as <- <-.
  exists amount, price, refuel_time. unfold fuel_entries_read. auto 10.
Qed.

(** C6. The fuel log that the dialogue hands over has
    [liters = amount / price_per_liter], and these litres do not exceed
    [MAX_TANK_CAPACITY], which is 60; [add_fuel] stores a log only under
    the same condition, and when it does not store it the wallet, hence
    the list of fuel logs, is left as it was.  With the amount 6000 and
    the price 100 the purchase (60 litres) is accepted and stored; with
    the amount 6001 (60.01 litres) the dialogue refuses it and nothing is
    stored. *)
Theorem C6_tank_capacity_is_enforced :
  MAX_TANK_CAPACITY = 60%float /\
  (forall py_float clock d log o,
      FuelDialog.on_save py_float clock d = (Some log, o) ->
      FuelLog.liters log
        = (FuelLog.amount log / FuelLog.price_per_liter log)%float /\
      PrimFloat.ltb MAX_TANK_CAPACITY (FuelLog.liters log) = false) /\
  (forall result w w' text,
      add_fuel result w = (w', Shown (showinfo "Success" text)) ->
      exists log,
        result = Some log /\
        PrimFloat.ltb MAX_TANK_CAPACITY (FuelLog.liters log) = false /\
        UberWallet.fuel_logs w' = log :: UberWallet.fuel_logs w) /\
  (forall result w w' title m,
      add_fuel result w = (w', Shown (showerror title m)) -> w' = w) /\
  (forall w, add_fuel None w = (w, Quiet)) /\
  (exists log,
      FuelDialog.on_save Numeral.to_float example_clock (example_dialog "6000" "100")
        = (Some log, Quiet) /\
      FuelLog.liters log = 60%float /\
      UberWallet.fuel_logs (fst (add_fuel (Some log) (init empty_db))) = [log]) /\
  (FuelDialog.on_save Numeral.to_float example_clock (example_dialog "6001" "100")
     = (None, Shown (showerror "Error" (Text "Fuel added exceeds tank capacity."))) /\
   Numeral.to_float "6001" = Some 6001%float /\
   (6001 / 100)%float = 60.01%float /\
   UberWallet.fuel_logs (fst (add_fuel None (init empty_db))) = []).
Proof.
  split; [reflexivity |].
  split; [| split; [| split; [| split; [| split]]]].
  - intros py_float clock d log o H.
    apply on_save_result in H as (amount & price & t & _ & _ & Hcap & -> & _).
    split; [reflexivity | exact Hcap].
  - intros result w w' text H.
    apply add_fuel_success in H as (log & -> & Hcap & ->).
    exists log. split; [reflexivity |]. split; [exact Hcap |].
    destruct (save_data_keeps
                (recalculate_current_fuel
                   (UberWallet.set_fuel_logs (log :: UberWallet.fuel_logs w) w)))
      as (_ & -> & _).
    destruct w; reflexivity.
  - intros result w w' title m. unfold add_fuel.
    destruct result as [log |]; [| discriminate].
    destruct (PrimFloat.ltb MAX_TANK_CAPACITY (FuelLog.liters log));
      [| discriminate].
    intros H. injection H as <-. reflexivity.
  - reflexivity.
  - eexists. split; [vm_compute; reflexivity |]. split; vm_compute; reflexivity.
  - repeat split; vm_compute; reflexivity.
Qed.

Lemma C6_witness :
  FuelLog.liters
    (fuel_log_of (example_dialog "6000" "100") 6000 100 "08:00")
    = (FuelLog.amount (fuel_log_of (example_dialog "6000" "100") 6000 100 "08:00") /
       FuelLog.price_per_liter
         (fuel_log_of (example_dialog "6000" "100") 6000 100 "08:00"))%float /\
  PrimFloat.ltb MAX_TANK_CAPACITY
    (FuelLog.liters (fuel_log_of (example_dialog "6000" "100") 6000 100 "08:00"))
    = false.
Proof.
  apply (proj1 (proj2 C6_tank_capacity_is_enforced) Numeral.to_float example_clock
           (example_dialog "6000" "100") _ Quiet).
  vm_compute. reflexivity.
Defined.

(** A price of 0 passes [validate_positive_float], which only refuses
    what is below zero; the division is then attempted and raises, and
    the error box is that of the general handler, not of a validation. *)
Lemma C7_counterexample :
  validate_positive_float Numeral.to_float "0" (Some "Price per Liter"%string)
    = Valid 0 /\
  FuelDialog.on_save Numeral.to_float example_clock (example_dialog "1000" "0")
    = (None, Shown (showerror "Error" (AnErrorOccurred ZeroDivisionError))) /\
  PyFloat.truediv 1000 0 = Raise ZeroDivisionError.
Proof. repeat split; vm_compute; reflexivity. Qed.

(** C7, as amended.  The price is validated to be a number that is not
    below zero: a price below zero is refused by the validation with its
    own error box, before any division.  A price of zero passes the
    validation; when the other entries are in order the division
    [amount / price] is then evaluated and raises [ZeroDivisionError],
    which the handler of [on_save] shows in an error box, and no fuel log
    results.  Every fuel log that does result has a price that is neither
    below zero nor zero, and its litres are the amount divided by it. *)
Theorem C7_price_zero_fails_in_the_division :
  (forall py_float clock d amount price,
      py_float (FuelDialog.amount_entry d) = Some amount ->
      PrimFloat.ltb amount 0 = false ->
      py_float (FuelDialog.price_entry d) = Some price ->
      PrimFloat.ltb price 0 = true ->
      FuelDialog.on_save py_float clock d
        = (None,
           Shown (showerror "Error"
                    (StrOf (ValueError
                              (CannotBeNegative (Some "Price per Liter"%string))))))) /\
  (forall py_float clock d amount price refuel_time,
      fuel_entries_read py_float clock d amount price refuel_time ->
      PrimFloat.eqb price 0 = true ->
      validate_positive_float py_float (FuelDialog.price_entry d)
        (Some "Price per Liter"%string) = Valid price /\
      PyFloat.truediv amount price = Raise ZeroDivisionError /\
      FuelDialog.on_save py_float clock d
        = (None, Shown (showerror "Error" (AnErrorOccurred ZeroDivisionError)))) /\
  (forall py_float clock d log o,
      FuelDialog.on_save py_float clock d = (Some log, o) ->
      PrimFloat.ltb (FuelLog.price_per_liter log) 0 = false /\
      PrimFloat.eqb (FuelLog.price_per_liter log) 0 = false /\
      FuelLog.liters log
        = (FuelLog.amount log / FuelLog.price_per_liter log)%float).
Proof.
  split; [| split].
  - intros py_float clock d amount price Ha Ha0 Hp Hp0.
    unfold FuelDialog.on_save, validate_positive_float.
    rewrite Ha, Ha0, Hp, Hp0. reflexivity.
  - intros py_float clock d amount price refuel_time Hread Hzero.
    split; [| split].
    + destruct Hread as (_ & _ & Hp & Hp0 & _).
      unfold validate_positive_float. rewrite Hp, Hp0. reflexivity.
    + unfold PyFloat.truediv. rewrite Hzero. reflexivity.
    + rewrite (on_save_after_checks _ _ _ _ _ _ Hread), Hzero. reflexivity.
  - intros py_float clock d log o H.
    apply on_save_result in H
      as (amount & price & t & (_ & _ & _ & Hp0 & _) & Hz & _ & -> & _).
    auto.
Qed.

Lemma C7_witness :
  validate_positive_float Numeral.to_float
    (FuelDialog.price_entry (example_dialog "1000" "0"))
    (Some "Price per Liter"%string) = Valid 0 /\
  PyFloat.truediv 1000 0 = Raise ZeroDivisionError /\
  FuelDialog.on_save Numeral.to_float example_clock (example_dialog "1000" "0")
    = (None, Shown (showerror "Error" (AnErrorOccurred ZeroDivisionError))).
Proof.
  apply (proj1 (proj2 C7_price_zero_fails_in_the_division) Numeral.to_float
           example_clock (example_dialog "1000" "0") 1000%float 0%float
           "08:00"%string).
  - repeat split; vm_compute; reflexivity.
  - reflexivity.
Defined.

(** ** Loading *)










Section OrderBy.

Context {A : Type} (key : A -> string * string).






Lemma limit_offset_default (rows : list A) :
  Db.limit_offset 100 0 rows = take 100 rows.
Proof. reflexivity. Qed.

End OrderBy.




(** With 101 stored trips of balance one, the session shows a balance of
    100. *)
Example the_oldest_trip_is_left_out :
  length (Db.trips crowded_db) = 101%nat /\
  Spec.currentBalance (Db.trips crowded_db) = 101%float /\
  length (UberWallet.trips (init crowded_db)) = 100%nat /\
  UberWallet.balance (init crowded_db) = 100%float.
Proof. vm_compute. repeat split. Qed.
